(** * A shallow embedding of [app.py]: the chat-history handlers

    The Flask application keeps one process-wide object, [chat_histories],
    and five view functions read or rebind it.  The request body, the
    completion chain, the console, the clock and the random source are
    collaborators: each handler takes what they produced for the request as
    an argument.

    Python values are modelled as follows.
    - A parsed JSON value is a [json]; an integer literal is the [int] that
      [json.loads] yields for it (literals with a fraction or an exponent,
      which become Python floats, are outside the model).
    - A [str] is a [string] whose characters are code points below 256.
    - An exception is an [exn]: only instances of [Exception] are modelled,
      since those are what the handler's [except] clauses catch. *)

From Stdlib Require Import ZArith List String Ascii Bool Lia DecimalString.
Import ListNotations.

Local Open Scope string_scope.
Local Open Scope Z_scope.

(** ** JSON values as [request.get_json()] returns them *)

#[local] Set Warnings "-register-all".

(** [JObj members] is a parsed object: [members] lists the items of the
    resulting dict in order, so its keys are distinct. *)
Inductive json : Type :=
| JNull
| JBool (b : bool)
| JNum (n : Z)
| JStr (s : string)
| JArr (items : list json)
| JObj (members : list (string * json)).

(** ** Exceptions *)

Record exn : Type := mk_exn {
  is_key_error : bool;      (* isinstance(e, KeyError) *)
  type_name : string;       (* type(e).__name__ *)
  text : string             (* str(e) *)
}.

Definition TypeError (msg : string) : exn := mk_exn false "TypeError" msg.
Definition IndexError (msg : string) : exn := mk_exn false "IndexError" msg.
Definition AttributeError (msg : string) : exn := mk_exn false "AttributeError" msg.
Definition KeyError (shown : string) : exn := mk_exn true "KeyError" shown.

Inductive outcome (A : Type) : Type :=
| Val (a : A)
| Raise (e : exn).
Arguments Val {A} a.
Arguments Raise {A} e.

(** ** The Python built-ins the handlers rely on *)

Module Py.

Definition nl : string := String (ascii_of_nat 10) EmptyString.
Definition squote : ascii := ascii_of_nat 39.
Definition dquote : ascii := ascii_of_nat 34.
Definition backslash : ascii := ascii_of_nat 92.

Definition chr (c : ascii) : string := String c EmptyString.

(** [bool(v)] *)
Definition truthy (v : json) : bool :=
  match v with
  | JNull => false
  | JBool b => b
  | JNum n => negb (n =? 0)
  | JStr s => negb (String.eqb s "")
  | JArr items => match items with [] => false | _ => true end
  | JObj members => match members with [] => false | _ => true end
  end.

Definition str_truthy (s : string) : bool := negb (String.eqb s "").

(** [str(n)] for an [int] *)
Definition str_int (n : Z) : string := NilZero.string_of_int (Z.to_int n).

Fixpoint has_char (c : ascii) (s : string) : bool :=
  match s with
  | EmptyString => false
  | String d s' => Ascii.eqb c d || has_char c s'
  end.

Definition hex_digit (d : nat) : ascii :=
  nth d ["0"; "1"; "2"; "3"; "4"; "5"; "6"; "7"; "8"; "9";
         "a"; "b"; "c"; "d"; "e"; "f"]%char "0"%char.

Definition hex2 (n : nat) : string :=
  String (hex_digit (n / 16)) (String (hex_digit (n mod 16)) EmptyString).

(** One character of [repr(s)], as [unicode_repr] writes it. *)
Definition repr_char (quote c : ascii) : string :=
  let n := nat_of_ascii c in
  if Ascii.eqb c quote || Ascii.eqb c backslash then String backslash (chr c)
  else if (n =? 9)%nat then String backslash "t"
  else if (n =? 10)%nat then String backslash "n"
  else if (n =? 13)%nat then String backslash "r"
  else if (n <? 32)%nat || (n =? 127)%nat then String backslash ("x" ++ hex2 n)
  else if (n <? 127)%nat then chr c
  else if (n <=? 160)%nat || (n =? 173)%nat then String backslash ("x" ++ hex2 n)
  else chr c.

Fixpoint repr_chars (quote : ascii) (s : string) : string :=
  match s with
  | EmptyString => EmptyString
  | String c s' => repr_char quote c ++ repr_chars quote s'
  end.

(** [repr(s)] for a [str] *)
Definition repr_str (s : string) : string :=
  let quote := if has_char squote s && negb (has_char dquote s)
               then dquote else squote in
  String quote (repr_chars quote s ++ chr quote).

Fixpoint join (sep : string) (parts : list string) : string :=
  match parts with
  | [] => ""
  | [p] => p
  | p :: rest => p ++ sep ++ join sep rest
  end.

(** [repr(v)] *)
Fixpoint repr (v : json) : string :=
  match v with
  | JNull => "None"
  | JBool true => "True"
  | JBool false => "False"
  | JNum n => str_int n
  | JStr s => repr_str s
  | JArr items => "[" ++ join ", " (map repr items) ++ "]"
  | JObj members =>
      "{" ++ join ", " (map (fun kv => repr_str (fst kv) ++ ": " ++ repr (snd kv))
                            members) ++ "}"
  end.

(** [str(v)], which is also what an f-string field [{v}] renders. *)
Definition str (v : json) : string :=
  match v with
  | JStr s => s
  | _ => repr v
  end.

(** Only [list] and [dict] values are unhashable among parsed JSON. *)
Definition hashable (v : json) : bool :=
  match v with
  | JArr _ | JObj _ => false
  | _ => true
  end.

(** [bool] is a subclass of [int]: [True == 1] and [False == 0]. *)
Definition as_int (v : json) : option Z :=
  match v with
  | JBool true => Some 1
  | JBool false => Some 0
  | JNum n => Some n
  | _ => None
  end.

(** [a == b] on hashable values, the test a [dict] applies to its keys. *)
Definition key_eqb (a b : json) : bool :=
  match a, b with
  | JNull, JNull => true
  | JStr s, JStr t => String.eqb s t
  | _, _ =>
      match as_int a, as_int b with
      | Some m, Some n => m =? n
      | _, _ => false
      end
  end.

(** [s in t] for two [str]: substring search. *)
Fixpoint is_substring (s t : string) : bool :=
  String.prefix s t ||
  match t with
  | EmptyString => false
  | String _ t' => is_substring s t'
  end.

(** [d.get(key)] on the members of a parsed object. *)
Fixpoint lookup (key : string) (members : list (string * json)) : option json :=
  match members with
  | [] => None
  | (k, v) :: rest => if String.eqb k key then Some v else lookup key rest
  end.

Definition type_of (v : json) : string :=
  match v with
  | JNull => "NoneType"
  | JBool _ => "bool"
  | JNum _ => "int"
  | JStr _ => "str"
  | JArr _ => "list"
  | JObj _ => "dict"
  end.

(** [key in v] for a [str] key *)
Definition contains (key : string) (v : json) : outcome bool :=
  match v with
  | JObj members => Val (match lookup key members with Some _ => true | None => false end)
  | JArr items =>
      Val (existsb (fun x => match x with JStr s => String.eqb s key | _ => false end) items)
  | JStr s => Val (is_substring key s)
  | _ => Raise (TypeError ("argument of type '" ++ type_of v ++ "' is not iterable"))
  end.

(** [v[key]] for a [str] key *)
Definition getitem (key : string) (v : json) : outcome json :=
  match v with
  | JObj members =>
      match lookup key members with
      | Some x => Val x
      | None => Raise (KeyError (repr_str key))
      end
  | JArr _ => Raise (TypeError "list indices must be integers or slices, not str")
  | JStr _ => Raise (TypeError "string indices must be integers, not 'str'")
  | _ => Raise (TypeError ("'" ++ type_of v ++ "' object is not subscriptable"))
  end.

(** [v.get(key, default)] *)
Definition get (key : string) (default : json) (v : json) : outcome json :=
  match v with
  | JObj members =>
      Val (match lookup key members with Some x => x | None => default end)
  | _ => Raise (AttributeError ("'" ++ type_of v ++ "' object has no attribute 'get'"))
  end.

(** [l[-n:]] *)
Definition last_n {A : Type} (n : nat) (l : list A) : list A :=
  skipn (List.length l - n)%nat l.

End Py.

(** ** Session turns and the process-wide store *)

(** One entry of a session's list: the dict with keys ['question'],
    ['answer'] and ['timestamp'] that [ask_question] appends. *)
Record Turn : Type := mk_turn {
  question : json;
  answer : string;
  timestamp : string
}.

(** The object bound to the global [chat_histories].  It starts as the
    dict [{}]; [clear_history] rebinds it to the list [[]], and no handler
    ever adds an element to that list.  A dict keeps its keys in insertion
    order together with the key object first inserted. *)
Inductive histories : Type :=
| Dict (items : list (json * list Turn))
| EmptyList.

Definition MAX_HISTORY_LENGTH : nat := 10.

Fixpoint dict_get (k : json) (items : list (json * list Turn)) : option (list Turn) :=
  match items with
  | [] => None
  | (k', h) :: rest => if Py.key_eqb k' k then Some h else dict_get k rest
  end.

(** [d[k] = h]: an existing key keeps its place, a new one goes last. *)
Fixpoint dict_set (k : json) (h : list Turn) (items : list (json * list Turn))
  : list (json * list Turn) :=
  match items with
  | [] => [(k, h)]
  | (k', h') :: rest =>
      if Py.key_eqb k' k then (k', h) :: rest else (k', h') :: dict_set k h rest
  end.

(** The state a request runs in: the global, and a log of the prompts the
    completion chain was invoked with (oldest first). *)
Record world : Type := mk_world {
  chat_histories : histories;
  invoked : list json
}.

Definition initial_world : world := mk_world (Dict []) [].

(** ** Computations that read and write the world and may raise *)

Definition M (A : Type) : Type := world -> outcome A * world.

Definition ret {A : Type} (a : A) : M A := fun w => (Val a, w).

Definition bind {A B : Type} (c : M A) (k : A -> M B) : M B :=
  fun w =>
    match c w with
    | (Val a, w') => k a w'
    | (Raise e, w') => (Raise e, w')
    end.

Definition lift {A : Type} (o : outcome A) : M A := fun w => (o, w).

Notation "x <- c ;; k" := (bind c (fun x => k))
  (at level 61, c at next level, right associativity).
Notation "c ;;; k" := (bind c (fun _ => k))
  (at level 61, right associativity).

Definition unhashable (v : json) : exn :=
  TypeError ("unhashable type: '" ++ Py.type_of v ++ "'").

Definition bad_list_index (v : json) : exn :=
  match Py.as_int v with
  | Some _ => IndexError "list index out of range"
  | None => TypeError ("list indices must be integers or slices, not " ++ Py.type_of v)
  end.

(** [session_id in chat_histories] *)
Definition hist_contains (session_id : json) : M bool :=
  fun w =>
    match chat_histories w with
    | Dict items =>
        if Py.hashable session_id
        then (Val (match dict_get session_id items with Some _ => true | None => false end), w)
        else (Raise (unhashable session_id), w)
    | EmptyList => (Val false, w)
    end.

(** [chat_histories[session_id]] *)
Definition hist_getitem (session_id : json) : M (list Turn) :=
  fun w =>
    match chat_histories w with
    | Dict items =>
        if Py.hashable session_id
        then match dict_get session_id items with
             | Some h => (Val h, w)
             | None => (Raise (KeyError (Py.repr session_id)), w)
             end
        else (Raise (unhashable session_id), w)
    | EmptyList => (Raise (bad_list_index session_id), w)
    end.

(** [chat_histories[session_id] = h] *)
Definition hist_setitem (session_id : json) (h : list Turn) : M unit :=
  fun w =>
    match chat_histories w with
    | Dict items =>
        if Py.hashable session_id
        then (Val tt, mk_world (Dict (dict_set session_id h items)) (invoked w))
        else (Raise (unhashable session_id), w)
    | EmptyList =>
        (Raise (match Py.as_int session_id with
                | Some _ => IndexError "list assignment index out of range"
                | None => bad_list_index session_id
                end), w)
    end.

(** [chat_histories[session_id].append(turn)]: the list stored in the dict
    is extended in place. *)
Definition hist_append (session_id : json) (turn : Turn) : M unit :=
  h <- hist_getitem session_id ;;
  fun w =>
    match chat_histories w with
    | Dict items => (Val tt, mk_world (Dict (dict_set session_id (h ++ [turn]) items)) (invoked w))
    | EmptyList => (Val tt, w)
    end.

(** [chat_histories[session_id:]]: the subscript is [slice(session_id, None,
    None)].  A dict hashes its subscript, and a slice is unhashable (CPython
    up to 3.11; from 3.12 on the slice hashes and the lookup raises
    [KeyError] instead).  The empty list accepts [None] or an integer as the
    start of a slice. *)
Definition hist_getslice (session_id : json) : M (list Turn) :=
  fun w =>
    match chat_histories w with
    | Dict _ => (Raise (TypeError "unhashable type: 'slice'"), w)
    | EmptyList =>
        match session_id, Py.as_int session_id with
        | JNull, _ | _, Some _ => (Val [], w)
        | _, None =>
            (Raise (TypeError
               "slice indices must be integers or None or have an __index__ method"), w)
        end
    end.

(** [len(chat_histories)] *)
Definition hist_len : M nat :=
  fun w =>
    match chat_histories w with
    | Dict items => (Val (List.length items), w)
    | EmptyList => (Val 0%nat, w)
    end.

(** [list(chat_histories.keys())] *)
Definition hist_keys : M (list json) :=
  fun w =>
    match chat_histories w with
    | Dict items => (Val (map fst items), w)
    | EmptyList => (Raise (AttributeError "'list' object has no attribute 'keys'"), w)
    end.

(** [global chat_histories; chat_histories = v] *)
Definition hist_rebind (v : histories) : M unit :=
  fun w => (Val tt, mk_world v (invoked w)).

(** ** Responses *)

Inductive rval : Type :=
| RText (s : string)
| RInt (n : Z)
| RJson (v : json)
| RTurns (h : list Turn)
| RKeys (ks : list json).

(** The dict handed to [jsonify], and the status code beside it. *)
Definition body : Type := list (string * rval).
Definition response : Type := (body * Z)%type.

Definition status_of (r : response) : Z := snd r.

(** ** POST /ask *)

(** What the collaborators give one [/ask] request: the outcome of
    [request.get_json()], the behaviour of [chain.invoke] on a prompt
    (its [.content], or the exception it raises), the reading of
    [str(datetime.datetime.now())], and the behaviour of [print] on a text:
    it returns, or it raises (a [UnicodeEncodeError] when the console
    cannot encode the text).  What the console shows is not part of the
    world. *)
Record ask_env : Type := mk_ask_env {
  get_json : outcome json;
  chain_invoke : json -> outcome string;
  now : string;
  console : string -> outcome unit
}.

(** [print(text)] *)
Definition print (env : ask_env) (text : string) : M unit :=
  lift (console env text).

(** The text of line 106, [f"Question received from session {session_id}: {question}"] *)
Definition received_text (session_id question : json) : string :=
  "Question received from session " ++ Py.str session_id ++ ": " ++ Py.str question.

(** The text of line 130, [f"Response for session: {session_id}:{response.content}"] *)
Definition response_text (session_id : json) (content : string) : string :=
  "Response for session: " ++ Py.str session_id ++ ":" ++ content.

(** [chain.invoke({"question": prompt})], logged. *)
Definition invoke (env : ask_env) (prompt : json) : M string :=
  fun w => (chain_invoke env prompt, mk_world (chat_histories w) (invoked w ++ [prompt])).

Definition header : string := "previous conversation:" ++ Py.nl.

(** The loop body [context += f"Human: {entry['question']}\nAI: {entry['answer']}\n"] *)
Definition add_entry (context : string) (entry : Turn) : string :=
  context ++ ("Human: " ++ Py.str (question entry) ++ Py.nl
              ++ "AI: " ++ answer entry ++ Py.nl).

Definition build_context (session_history : list Turn) : string :=
  match session_history with
  | [] => ""
  | _ => fold_left add_entry session_history header
  end.

Definition contextualize (context : string) (question : json) : json :=
  if Py.str_truthy context
  then JStr (context ++ "Human: " ++ Py.str question)
  else question.

(** The body of the [try] block. *)
Definition ask_try (env : ask_env) : M response :=
  data <- lift (get_json env) ;;
  missing <- (if negb (Py.truthy data) then ret true
              else present <- lift (Py.contains "question" data) ;;
                   ret (negb present)) ;;
  if (missing : bool)
  then ret ([("error", RText "Missing 'question' in request body")], 400)
  else
    question <- lift (Py.getitem "question" data) ;;
    session_id <- lift (Py.get "session_id" (JStr "default_session") data) ;;
    print env (received_text session_id question) ;;;
    known <- hist_contains session_id ;;
    (if (known : bool) then ret tt else hist_setitem session_id []) ;;;
    session_history <- hist_getitem session_id ;;
    let context := build_context session_history in
    let contextualized_question := contextualize context question in
    content <- invoke env contextualized_question ;;
    print env (response_text session_id content) ;;;
    hist_append session_id (mk_turn question content (now env)) ;;;
    stored <- hist_getitem session_id ;;
    (if (MAX_HISTORY_LENGTH <? List.length stored)%nat
     then whole <- hist_getslice session_id ;;
          hist_setitem session_id (Py.last_n MAX_HISTORY_LENGTH whole)
     else ret tt) ;;;
    history <- hist_getitem session_id ;;
    ret ([("answer", RText content);
          ("status", RText "success");
          ("session_id", RJson session_id);
          ("history", RTurns history)], 200).

(** The two [except] clauses. *)
Definition error_message (e : exn) : string :=
  if is_key_error e
  then "KeyError: " ++ text e
  else "Unexpected error: " ++ type_name e ++ ": " ++ text e.

Definition ask_question (env : ask_env) (w : world) : response * world :=
  match ask_try env w with
  | (Val r, w') => (r, w')
  | (Raise e, w') => (([("error", RText (error_message e))], 500), w')
  end.

(** ** GET /history, GET /sessions, POST /clear-all-history *)

(** [request.args.get('session_id', 'default_session')] *)
Definition arg_session_id (arg : option string) : string :=
  match arg with
  | Some s => s
  | None => "default_session"
  end.

Definition get_history (arg : option string) : M response :=
  let session_id := JStr (arg_session_id arg) in
  known <- hist_contains session_id ;;
  if (known : bool)
  then
    history <- hist_getitem session_id ;;
    stored <- hist_getitem session_id ;;
    ret ([("history", RTurns history);
          ("count", RInt (Z.of_nat (List.length stored)));
          ("session_id", RJson session_id)], 200)
  else
    ret ([("history", RTurns []);
          ("count", RInt 0);
          ("session_id", RJson session_id);
          ("error", RText ("No chat history found for session " ++ Py.str session_id))],
         200).

Definition get_sessions : M response :=
  keys <- hist_keys ;;
  count <- hist_len ;;
  ret ([("sessions", RKeys keys); ("count", RInt (Z.of_nat count))], 200).

Definition clear_history : M response :=
  session_count <- hist_len ;;
  hist_rebind EmptyList ;;;
  ret ([("message", RText ("Chat history cleared for all "
                           ++ Py.str_int (Z.of_nat session_count) ++ " sessions"));
        ("status", RText "success")], 200).

(** ** GET /generate-session *)

(** [uuid.uuid4()] builds [UUID(bytes=os.urandom(16), version=4)]: the 128
    random bits as a big-endian integer, with the two variant bits and the
    four version bits overwritten. *)
Definition uuid4 (random : Z) : Z :=
  let i := Z.land random (Z.lnot (Z.shiftl 0xc000 48)) in
  let i := Z.lor i (Z.shiftl 0x8000 48) in
  let i := Z.land i (Z.lnot (Z.shiftl 0xf000 64)) in
  Z.lor i (Z.shiftl 4 76).

(** The [k] low hexadecimal digits of [n], most significant first:
    ['%032x' % n] when [k = 32] and [0 <= n < 2^128]. *)
Fixpoint hex_digits (k : nat) (n : Z) : string :=
  match k with
  | O => ""
  | S k' => String (Py.hex_digit (Z.to_nat ((n / 16 ^ Z.of_nat k') mod 16)))
                   (hex_digits k' n)
  end.

(** [UUID.__str__]'s ['%s-%s-%s-%s-%s' % (hex[:8], hex[8:12], hex[12:16],
    hex[16:20], hex[20:])] *)
Definition dashed (hex : string) : string :=
  substring 0 8 hex ++ "-" ++ substring 8 4 hex ++ "-" ++ substring 12 4 hex
  ++ "-" ++ substring 16 4 hex ++ "-" ++ substring 20 (String.length hex - 20) hex.

Definition uuid_str (i : Z) : string := dashed (hex_digits 32 i).

Definition generate_session (random : Z) : M response :=
  let new_session_id := uuid_str (uuid4 random) in
  ret ([("session_id", RText new_session_id); ("status", RText "success")], 200).

(** ** The application as a transition system *)

Inductive request : Type :=
| Ask (env : ask_env)
| History (session_id : option string)
| Sessions
| GenerateSession (random : Z)
| ClearAllHistory.

(** A view function either returns a response or lets an exception escape,
    which the framework answers with its own 500 page. *)
Inductive served : Type :=
| Served (r : response)
| Escaped (e : exn).

Definition serve (view : M response) (w : world) : served * world :=
  match view w with
  | (Val r, w') => (Served r, w')
  | (Raise e, w') => (Escaped e, w')
  end.

Definition handle (req : request) (w : world) : served * world :=
  match req with
  | Ask env => let (r, w') := ask_question env w in (Served r, w')
  | History arg => serve (get_history arg) w
  | Sessions => serve get_sessions w
  | GenerateSession random => serve (generate_session random) w
  | ClearAllHistory => serve clear_history w
  end.

(** Requests served one after another; the responses come back oldest first. *)
Fixpoint run (reqs : list request) (w : world) : list served * world :=
  match reqs with
  | [] => ([], w)
  | req :: rest =>
      let (r, w') := handle req w in
      let (rs, w'') := run rest w' in
      (r :: rs, w'')
  end.

(** The turns stored under a session id, if the store is a dict holding it. *)
Definition history_of (session_id : json) (w : world) : option (list Turn) :=
  match chat_histories w with
  | Dict items => dict_get session_id items
  | EmptyList => None
  end.

(** * The vocabulary of the statements, and sample requests *)

(** The equivalence class a hashable key falls in. *)
Definition key_class (v : json) : option (unit + Z + string) :=
  match v with
  | JNull => Some (inl (inl tt))
  | JStr s => Some (inr s)
  | _ => option_map (fun n => inl (inr n)) (Py.as_int v)
  end.

(** The session id line 105 resolves: the member ['session_id'] when the
    object has one (whatever its value), the default otherwise. *)
Definition resolved_session (members : list (string * json)) : json :=
  match Py.lookup "session_id" members with
  | Some v => v
  | None => JStr "default_session"
  end.

(** The turns a dict store holds for a session, none when it is unknown. *)
Definition stored_turns (session_id : json) (items : list (json * list Turn)) : list Turn :=
  match dict_get session_id items with
  | Some h => h
  | None => []
  end.

(** The dict after lines 108-109. *)
Definition with_session (session_id : json) (items : list (json * list Turn))
  : list (json * list Turn) :=
  match dict_get session_id items with
  | Some _ => items
  | None => dict_set session_id [] items
  end.

Definition error_response (e : exn) : response :=
  ([("error", RText (error_message e))], 500).

Definition success_response (content : string) (session_id : json) (history : list Turn)
  : response :=
  ([("answer", RText content);
    ("status", RText "success");
    ("session_id", RJson session_id);
    ("history", RTurns history)], 200).

(** Does the parsed body carry the key the handler looks for? *)
Definition has_question (parsed : outcome json) : bool :=
  match parsed with
  | Val (JObj members) =>
      match Py.lookup "question" members with Some _ => true | None => false end
  | _ => false
  end.

Definition missing_question : response :=
  ([("error", RText "Missing 'question' in request body")], 400).

Definition line (s : string) : string := s ++ Py.nl.

Fixpoint flatten (parts : list string) : string :=
  match parts with
  | [] => ""
  | p :: rest => p ++ flatten rest
  end.

(** The two lines one stored turn contributes. *)
Definition two_lines (t : Turn) : string :=
  line ("Human: " ++ Py.str (question t)) ++ line ("AI: " ++ answer t).

(** The prompt in the words of the specification: the new question alone
    for an empty turn list; otherwise the header line, two lines per stored
    turn in stored order, and a final line for the new question. *)
Definition expected_prompt (session_turns : list Turn) (new_question : json) : json :=
  match session_turns with
  | [] => new_question
  | _ => JStr (line "previous conversation:"
               ++ flatten (map two_lines session_turns)
               ++ "Human: " ++ Py.str new_question)
  end.

(** A console that can show every text (a UTF-8 terminal), and one that can
    show ASCII only and raises as [print] does on the first character, or
    run of characters, outside it. *)
Definition utf8_console : string -> outcome unit := fun _ => Val tt.

Definition is_ascii (c : ascii) : bool := (nat_of_ascii c <? 128)%nat.

Fixpoint first_non_ascii (s : string) (i : nat) : option (nat * ascii * string) :=
  match s with
  | EmptyString => None
  | String c s' => if is_ascii c then first_non_ascii s' (S i) else Some (i, c, s')
  end.

Fixpoint non_ascii_run (s : string) : nat :=
  match s with
  | EmptyString => O
  | String c s' => if is_ascii c then O else S (non_ascii_run s')
  end.

Definition ascii_console (text : string) : outcome unit :=
  match first_non_ascii text 0 with
  | None => Val tt
  | Some (i, c, rest) =>
      let place :=
        match non_ascii_run rest with
        | O => "character '" ++ String Py.backslash ("x" ++ Py.hex2 (nat_of_ascii c))
               ++ "' in position " ++ Py.str_int (Z.of_nat i)
        | S k => "characters in position " ++ Py.str_int (Z.of_nat i) ++ "-"
                 ++ Py.str_int (Z.of_nat (i + S k))
        end in
      Raise (mk_exn false "UnicodeEncodeError"
                    ("'ascii' codec can't encode " ++ place
                     ++ ": ordinal not in range(128)"))
  end.

(** Two sample requests: the scenario of the specification. *)
Definition stub_chain (content : string) : json -> outcome string :=
  fun _ => Val content.

Definition first_ask : ask_env :=
  mk_ask_env (Val (JObj [("question", JStr "What is 2+2?")]))
             (stub_chain "4") "2024-05-01 10:00:00.000001" utf8_console.

Definition second_ask : ask_env :=
  mk_ask_env (Val (JObj [("question", JStr "And 3+3?");
                         ("session_id", JStr "default_session")]))
             (stub_chain "6") "2024-05-01 10:00:07.000002" utf8_console.

Definition after_first_ask : world := snd (ask_question first_ask initial_world).

(** A request for another session, and the world holding both sessions. *)
Definition other_ask : ask_env :=
  mk_ask_env (Val (JObj [("question", JStr "Capital of France?");
                         ("session_id", JStr "other")]))
             (stub_chain "Paris") "2024-05-01 10:00:03.000004" utf8_console.

Definition two_sessions : world := snd (ask_question other_ask after_first_ask).

(** Bodies that validation meets: an object without the key, a bare number,
    an object whose session id is a list, an object whose question is null. *)
Definition no_question_ask : ask_env :=
  mk_ask_env (Val (JObj [("prompt", JStr "What is 2+2?")]))
             (stub_chain "4") "2024-05-01 10:00:00.000001" utf8_console.

(** Requests served while the console shows ASCII only: one whose question
    holds an e with acute accent (code point 233), one whose answer does. *)
Definition accented : string := "caf" ++ String (ascii_of_nat 233) EmptyString.

Definition accented_question_ask : ask_env :=
  mk_ask_env (Val (JObj [("question", JStr accented)]))
             (stub_chain "coffee") "2024-05-01 10:00:11.000001" ascii_console.

Definition accented_answer_ask : ask_env :=
  mk_ask_env (Val (JObj [("question", JStr "coffee in French?")]))
             (stub_chain accented) "2024-05-01 10:00:12.000001" ascii_console.

Definition number_body_ask : ask_env :=
  mk_ask_env (Val (JNum 5)) (stub_chain "4") "2024-05-01 10:00:00.000001" utf8_console.

Definition list_session_ask : ask_env :=
  mk_ask_env (Val (JObj [("question", JStr "hi"); ("session_id", JArr [JStr "a"])]))
             (stub_chain "hello") "2024-05-01 10:00:00.000001" utf8_console.

Definition null_question_ask : ask_env :=
  mk_ask_env (Val (JObj [("question", JNull)]))
             (stub_chain "I need a question.") "2024-05-01 10:00:00.000001" utf8_console.

Definition quota_error : exn := mk_exn false "RateLimitError" "quota exceeded".

Definition failing_ask : ask_env :=
  mk_ask_env (Val (JObj [("question", JStr "hello"); ("session_id", JStr "s1")]))
             (fun _ => Raise quota_error) "2024-05-01 10:00:00.000001" utf8_console.

(** Is the request an [/ask] that passes validation and names this session?
    Only such a request reaches lines 108-109, where sessions are created. *)
Definition asks_about (session_id : string) (req : request) : bool :=
  match req with
  | Ask env =>
      match get_json env with
      | Val (JObj members) =>
          has_question (get_json env)
          && Py.key_eqb (resolved_session members) (JStr session_id)
      | _ => false
      end
  | _ => false
  end.

Definition no_history_response (session_id : string) : response :=
  ([("history", RTurns []);
    ("count", RInt 0);
    ("session_id", RJson (JStr session_id));
    ("error", RText ("No chat history found for session " ++ session_id))], 200).

(** The [n]-th of a series of requests for session ["s"]. *)
Definition numbered_ask (n : nat) : ask_env :=
  mk_ask_env (Val (JObj [("question", JStr ("question " ++ Py.str_int (Z.of_nat n)));
                         ("session_id", JStr "s")]))
             (stub_chain ("answer " ++ Py.str_int (Z.of_nat n)))
             ("2024-05-01 10:00:" ++ Py.str_int (Z.of_nat (10 + n)) ++ ".000000") utf8_console.

Definition numbered_turn (n : nat) : Turn :=
  mk_turn (JStr ("question " ++ Py.str_int (Z.of_nat n)))
          ("answer " ++ Py.str_int (Z.of_nat n))
          ("2024-05-01 10:00:" ++ Py.str_int (Z.of_nat (10 + n)) ++ ".000000").

Definition eleven_asks : list request := map (fun n => Ask (numbered_ask n)) (seq 1 11).

Definition status_served (r : served) : option Z :=
  match r with
  | Served resp => Some (status_of resp)
  | Escaped _ => None
  end.

(** The value of a lower-case hexadecimal digit. *)
Definition hex_value (c : ascii) : nat :=
  let n := nat_of_ascii c in
  if (n <? 58)%nat then (n - 48)%nat else (n - 87)%nat.

(** The bits of the draw that [uuid4] keeps: all but the two variant bits
    (62, 63) and the four version bits (76 to 79). *)
Definition kept_bits : Z :=
  Z.lnot (Z.lor (Z.shiftl 0xc000 48) (Z.shiftl 0xf000 64)).

(** * Start-up: lines 34 to 57 *)

(** [os.getenv], once [load_dotenv()] has run: the value of a variable, or
    [None]. *)
Definition getenv_fn : Type := string -> option string.

Definition required_vars : list (string * string) :=
  [("AZURE_OPENAI_API_KEY", "API key");
   ("AZURE_OPENAI_ENDPOINT", "endpoint");
   ("AZURE_OPENAI_API_VERSION", "API version");
   ("AZURE_OPENAI_CHAT_DEPLOYMENT_NAME", "Deployment name")].

Definition ValueError (msg : string) : exn := mk_exn false "ValueError" msg.
Definition RuntimeError (msg : string) : exn := mk_exn false "RuntimeError" msg.

(** [bool(os.getenv(var))]: [None] and the empty string are falsy. *)
Definition env_truthy (v : option string) : bool :=
  match v with
  | Some s => Py.str_truthy s
  | None => false
  end.

(** The loop of lines 40-42 over the items of a dict, in order. *)
Fixpoint check_vars (getenv : getenv_fn) (vars : list (string * string)) : outcome unit :=
  match vars with
  | [] => Val tt
  | (var, desc) :: rest =>
      if negb (env_truthy (getenv var))
      then Raise (ValueError ("Missing " ++ desc
                              ++ " in environment variables. Check your .env file."))
      else check_vars getenv rest
  end.

(** Lines 34-57.  The constructor of the model client is a collaborator; it
    is handed the two values the code reads for it (its [temperature] and
    [max_tokens] arguments are constants). *)
Definition startup {L : Type} (getenv : getenv_fn)
           (AzureChatOpenAI : option string -> option string -> outcome L) : outcome L :=
  match check_vars getenv required_vars with
  | Raise e => Raise e
  | Val _ =>
      match AzureChatOpenAI (getenv "AZURE_OPENAI_API_VERSION")
                            (getenv "AZURE_OPENAI_CHAT_DEPLOYMENT_NAME") with
      | Val llm => Val llm
      | Raise e => Raise (RuntimeError ("Failed to initialize AzureChatOpenAI: " ++ text e))
      end
  end.

(** * More vocabulary *)

(** The session ids a dict store holds, in its order. *)
Definition session_keys (w : world) : list json :=
  match chat_histories w with
  | Dict items => map fst items
  | EmptyList => []
  end.

(** No two keys of the list are equal in Python's sense. *)
Definition distinct_keys (keys : list json) : Prop :=
  ForallOrdPairs (fun a b => Py.key_eqb a b = false) keys.

(** A request to [/ask] that passes validation and names the session. *)
Definition valid_ask (session_id : json) (env : ask_env) : Prop :=
  exists members q,
    get_json env = Val (JObj members) /\
    Py.lookup "question" members = Some q /\
    resolved_session members = session_id.

(** The question a request carries ([None] when it carries none). *)
Definition asked (env : ask_env) : json :=
  match get_json env with
  | Val (JObj members) =>
      match Py.lookup "question" members with
      | Some q => q
      | None => JNull
      end
  | _ => JNull
  end.

(** The console takes whatever text it is given. *)
Definition shows_all (env : ask_env) : Prop :=
  forall text, console env text = Val tt.

(** The chain answers whatever prompt it is given. *)
Definition answers (env : ask_env) : Prop :=
  forall prompt, exists content, chain_invoke env prompt = Val content.

(** What [get_history] answers, given what the store holds for the session. *)
Definition history_response (session_id : string) (stored : option (list Turn))
  : response :=
  match stored with
  | Some h =>
      ([("history", RTurns h);
        ("count", RInt (Z.of_nat (List.length h)));
        ("session_id", RJson (JStr session_id))], 200)
  | None => no_history_response session_id
  end.

(** What each kind of request gets once the store has been cleared. *)
Definition answer_after_clear (req : request) (r : served) : Prop :=
  match req with
  | Ask _ => status_served r = Some 400 \/ status_served r = Some 500
  | History arg => r = Served (no_history_response (arg_session_id arg))
  | Sessions => r = Escaped (AttributeError "'list' object has no attribute 'keys'")
  | GenerateSession _ => status_served r = Some 200
  | ClearAllHistory =>
      r = Served ([("message", RText "Chat history cleared for all 0 sessions");
                   ("status", RText "success")], 200)
  end.

(** One turn that reads, in a prompt, like the two turns [t1] and [t2]. *)
Definition merged_turn (t1 t2 : Turn) : Turn :=
  mk_turn (question t1)
          (answer t1 ++ Py.nl ++ "Human: " ++ Py.str (question t2) ++ Py.nl
           ++ "AI: " ++ answer t2)
          (timestamp t1).

Definition is_hex_digit (c : ascii) : Prop :=
  exists d : nat, (d < 16)%nat /\ c = Py.hex_digit d.

Fixpoint all_hex (s : string) : Prop :=
  match s with
  | EmptyString => True
  | String c s' => is_hex_digit c /\ all_hex s'
  end.

Definition a_chain_that_fails : json -> outcome string := fun _ => Raise quota_error.

Definition sample_getenv : getenv_fn :=
  fun var =>
    if String.eqb var "AZURE_OPENAI_API_KEY" then Some "k"
    else if String.eqb var "AZURE_OPENAI_ENDPOINT" then Some "https://example.invalid"
    else if String.eqb var "AZURE_OPENAI_API_VERSION" then Some ""
    else None.

(** A request whose session id is a number. *)
Definition numeric_session_ask : ask_env :=
  mk_ask_env (Val (JObj [("question", JStr "hi"); ("session_id", JNum 1)]))
             (stub_chain "hello") "2024-05-01 10:00:09.000001" utf8_console.

Definition is_clear (req : request) : bool :=
  match req with
  | ClearAllHistory => true
  | _ => false
  end.

(** The keys of a dict store stay hashable and pairwise unequal. *)
Definition sound_store (w : world) : Prop :=
  match chat_histories w with
  | Dict items =>
      distinct_keys (map fst items)
      /\ Forall (fun k => Py.hashable k = true) (map fst items)
  | EmptyList => True
  end.

(** The variable has a value, and not the empty one. *)
Definition is_set (getenv : getenv_fn) (var : string) : Prop :=
  exists s, getenv var = Some s /\ s <> "".

(** * Properties *)

(** ** Dict keys *)

Section Keys.

Lemma key_eqb_class (a b : json) :
  Py.key_eqb a b = true <-> key_class a = key_class b /\ key_class a <> None.
Proof.
  destruct a as [|[]| | | |], b as [|[]| | | |];
    cbn [Py.key_eqb Py.as_int key_class option_map];
    try (split; [discriminate | intros [E N]; congruence]);
    try (split; [intros _; split; [reflexivity | discriminate] | reflexivity]);
    try (rewrite Z.eqb_eq; split;
         [intros ->; split; [reflexivity | discriminate]
         | intros [E _]; congruence]).
  rewrite String.eqb_eq; split;
    [intros ->; split; [reflexivity | discriminate] | intros [E _]; congruence].
Qed.

Lemma hashable_class (v : json) : Py.hashable v = true <-> key_class v <> None.
Proof.
  destruct v as [|[]| | | |]; simpl; split; congruence.
Qed.

Lemma key_eqb_refl (k : json) : Py.hashable k = true -> Py.key_eqb k k = true.
Proof.
  intros H. apply key_eqb_class. split; [reflexivity | now apply hashable_class].
Qed.

(** A stored key equal to [s] is unequal to whatever [s] is unequal to. *)
Lemma key_eqb_transfer (k s t : json) :
  Py.key_eqb k s = true -> Py.key_eqb s t = false -> Py.key_eqb k t = false.
Proof.
  intros Hks Hst. destruct (Py.key_eqb k t) eqn:Hkt; [|reflexivity].
  apply key_eqb_class in Hks as [E1 N1]. apply key_eqb_class in Hkt as [E2 _].
  rewrite <- Hst. symmetry. apply key_eqb_class. split; congruence.
Qed.

Lemma key_eqb_str (a b : string) :
  Py.key_eqb (JStr a) (JStr b) = false <-> a <> b.
Proof. simpl. apply String.eqb_neq. Qed.

End Keys.

(** ** The dict operations *)

Section DictFacts.

Implicit Types (items : list (json * list Turn)) (k s t : json) (h : list Turn).

Lemma dict_get_set_same items k h :
  Py.hashable k = true -> dict_get k (dict_set k h items) = Some h.
Proof.
  intros Hk. induction items as [|[k' h'] rest IH]; simpl.
  - now rewrite key_eqb_refl.
  - destruct (Py.key_eqb k' k) eqn:E; simpl; rewrite E; [reflexivity | exact IH].
Qed.

Lemma dict_get_set_other items s t h :
  Py.key_eqb s t = false -> dict_get t (dict_set s h items) = dict_get t items.
Proof.
  intros Hst. induction items as [|[k' h'] rest IH]; simpl.
  - now rewrite Hst.
  - destruct (Py.key_eqb k' s) eqn:E; simpl.
    + now rewrite (key_eqb_transfer _ _ _ E Hst).
    + now rewrite IH.
Qed.

(** Assigning to a key the dict does not hold adds one item at the end. *)
Lemma dict_set_new items k h :
  dict_get k items = None -> dict_set k h items = (items ++ [(k, h)])%list.
Proof.
  induction items as [|[k' h'] rest IH]; simpl; [reflexivity|].
  destruct (Py.key_eqb k' k); [discriminate|]. intros H. now rewrite IH.
Qed.

End DictFacts.

(** ** What [ask_question] does, path by path *)

Lemma bind_eq {A B : Type} (c : M A) (k : A -> M B) (w : world) :
  bind c k w = match c w with
               | (Val a, w') => k a w'
               | (Raise e, w') => (Raise e, w')
               end.
Proof. reflexivity. Qed.

Section AskPaths.

Variables (env : ask_env) (w : world).

Lemma lookup_some_truthy (key : string) (members : list (string * json)) (v : json) :
  Py.lookup key members = Some v -> Py.truthy (JObj members) = true.
Proof. destruct members; [discriminate | reflexivity]. Qed.

Lemma with_session_get (session_id : json) (items : list (json * list Turn)) :
  Py.hashable session_id = true ->
  dict_get session_id (with_session session_id items)
  = Some (stored_turns session_id items).
Proof.
  intros Hh. unfold with_session, stored_turns.
  destruct (dict_get session_id items) eqn:E; [exact E|].
  now apply dict_get_set_same.
Qed.

(** Past validation and line 105, the handler is at the [print] of line
    106. *)
Ltac past_line_105 Hjson Hq members :=
  unfold ask_question, ask_try;
  rewrite bind_eq; unfold lift at 1; rewrite Hjson; cbv beta iota;
  rewrite (lookup_some_truthy _ _ _ Hq); cbn [negb];
  rewrite bind_eq; rewrite bind_eq; unfold lift at 1; cbn [Py.contains]; rewrite Hq;
  unfold ret at 1; cbn [negb]; cbv beta iota;
  rewrite bind_eq; unfold lift at 1; cbn [Py.getitem]; rewrite Hq; cbv beta iota;
  rewrite bind_eq; unfold lift at 1; cbn [Py.get]; cbv beta iota;
  fold (resolved_session members);
  rewrite bind_eq; unfold print at 1; unfold lift at 1.

(** When the console refuses the text of line 106, the handler stops
    there. *)
Lemma ask_question_unprinted (members : list (string * json)) (q : json) (e : exn) :
  get_json env = Val (JObj members) ->
  Py.lookup "question" members = Some q ->
  console env (received_text (resolved_session members) q) = Raise e ->
  ask_question env w = (error_response e, w).
Proof.
  intros Hjson Hq Hprint. past_line_105 Hjson Hq members. now rewrite Hprint.
Qed.

(** The main path: a body with the key, a text the console takes, a hashable
    session id, a dict store. *)
Lemma ask_question_dict (members : list (string * json)) (q : json)
      (items : list (json * list Turn)) :
  get_json env = Val (JObj members) ->
  Py.lookup "question" members = Some q ->
  chat_histories w = Dict items ->
  Py.hashable (resolved_session members) = true ->
  console env (received_text (resolved_session members) q) = Val tt ->
  let session_id := resolved_session members in
  let old := stored_turns session_id items in
  let prompt := contextualize (build_context old) q in
  let log := (invoked w ++ [prompt])%list in
  ask_question env w =
    match chain_invoke env prompt with
    | Raise e => (error_response e, mk_world (Dict (with_session session_id items)) log)
    | Val content =>
        match console env (response_text session_id content) with
        | Raise e =>
            (error_response e, mk_world (Dict (with_session session_id items)) log)
        | Val _ =>
            let new := (old ++ [mk_turn q content (now env)])%list in
            let w' := mk_world (Dict (dict_set session_id new
                                               (with_session session_id items)))
                               log in
            if (MAX_HISTORY_LENGTH <? List.length new)%nat
            then (error_response (TypeError "unhashable type: 'slice'"), w')
            else (success_response content session_id new, w')
        end
    end.
Proof.
  intros Hjson Hq Hdict Hhash0 Hprint0 session_id old prompt log.
  assert (Hhash : Py.hashable session_id = true) by exact Hhash0.
  assert (Hprint : console env (received_text session_id q) = Val tt) by exact Hprint0.
  clear Hhash0 Hprint0.
  pose proof (with_session_get _ items Hhash) as Hget.
  fold old in Hget.
  destruct w as [store lg]; cbn [chat_histories invoked] in *; subst store.
  past_line_105 Hjson Hq members. fold session_id. rewrite Hprint. cbv beta iota.
  rewrite bind_eq. unfold hist_contains at 1. cbn [chat_histories]. rewrite Hhash.
  cbv beta iota.
  assert (Hinit :
    (if match dict_get session_id items with Some _ => true | None => false end
     then ret tt else hist_setitem session_id [])
      {| chat_histories := Dict items; invoked := lg |}
    = (Val tt, {| chat_histories := Dict (with_session session_id items);
                  invoked := lg |})).
  { unfold with_session, hist_setitem, ret. cbn [chat_histories invoked].
    rewrite Hhash. now destruct (dict_get session_id items). }
  rewrite bind_eq, Hinit. cbv beta iota.
  rewrite bind_eq. unfold hist_getitem at 1. cbn [chat_histories].
  rewrite Hhash, Hget. cbv beta iota. fold prompt.
  rewrite bind_eq. unfold invoke at 1. cbn [chat_histories invoked]. fold log.
  destruct (chain_invoke env prompt) as [content|e]; [|reflexivity].
  cbv beta iota.
  rewrite bind_eq. unfold print at 1. unfold lift at 1.
  destruct (console env (response_text session_id content)) as [[]|e]; [|reflexivity].
  cbv beta iota.
  rewrite bind_eq. unfold hist_append at 1. rewrite bind_eq.
  unfold hist_getitem at 1. cbn [chat_histories invoked].
  rewrite Hhash, Hget. cbv beta iota. cbn [chat_histories invoked]. cbv beta iota.
  rewrite bind_eq. unfold hist_getitem at 1. cbn [chat_histories invoked].
  rewrite Hhash, (dict_get_set_same _ _ _ Hhash). cbv beta iota.
  rewrite bind_eq.
  destruct (MAX_HISTORY_LENGTH <? _)%nat.
  - rewrite bind_eq. unfold hist_getslice at 1. cbn [chat_histories]. reflexivity.
  - unfold ret at 1. cbv beta iota.
    rewrite bind_eq. unfold hist_getitem at 1. cbn [chat_histories invoked].
    rewrite Hhash, (dict_get_set_same _ _ _ Hhash). reflexivity.
Qed.

(** An unhashable session id stops the handler at line 108. *)
Lemma ask_question_unhashable (members : list (string * json)) (q : json)
      (items : list (json * list Turn)) :
  get_json env = Val (JObj members) ->
  Py.lookup "question" members = Some q ->
  chat_histories w = Dict items ->
  Py.hashable (resolved_session members) = false ->
  console env (received_text (resolved_session members) q) = Val tt ->
  ask_question env w = (error_response (unhashable (resolved_session members)), w).
Proof.
  intros Hjson Hq Hdict Hhash Hprint.
  past_line_105 Hjson Hq members. rewrite Hprint. cbv beta iota.
  rewrite bind_eq. unfold hist_contains at 1. rewrite Hdict, Hhash. reflexivity.
Qed.

(** Once the global is a list, line 109 raises. *)
Lemma ask_question_cleared (members : list (string * json)) (q : json) :
  get_json env = Val (JObj members) ->
  Py.lookup "question" members = Some q ->
  chat_histories w = EmptyList ->
  console env (received_text (resolved_session members) q) = Val tt ->
  exists e, ask_question env w = (error_response e, w).
Proof.
  intros Hjson Hq Hlist Hprint.
  past_line_105 Hjson Hq members. rewrite Hprint. cbv beta iota.
  rewrite bind_eq. unfold hist_contains at 1. rewrite Hlist. cbv beta iota.
  rewrite bind_eq. unfold hist_setitem at 1. rewrite Hlist.
  eexists. reflexivity.
Qed.

(** A body that is absent, or an object without the key, takes the 400
    branch. *)
Lemma ask_question_missing_key :
  get_json env = Val JNull \/
  (exists members, get_json env = Val (JObj members)
                   /\ Py.lookup "question" members = None) ->
  ask_question env w = (missing_question, w).
Proof.
  intros [Hjson | [members [Hjson Hq]]];
    unfold ask_question, ask_try; rewrite bind_eq; unfold lift at 1;
    rewrite Hjson; cbv beta iota; rewrite bind_eq.
  - reflexivity.
  - destruct members as [|m ms]; [reflexivity|].
    cbn [Py.truthy negb]. rewrite bind_eq. unfold lift at 1.
    cbn [Py.contains]. rewrite Hq. reflexivity.
Qed.

(** Without the key in a parsed object, the handler stops before it reads
    the store: it answers 400 or 500 and the world is as before. *)
Lemma ask_question_rejected :
  has_question (get_json env) = false ->
  exists (b : body) (status : Z),
    ask_question env w = ((b, status), w) /\ (status = 400 \/ status = 500).
Proof.
  intros Hno.
  destruct (get_json env) as [data|e] eqn:Hjson.
  2: { unfold ask_question, ask_try. rewrite bind_eq. unfold lift at 1.
       rewrite Hjson. eexists _, _; split; [reflexivity | now right]. }
  assert (Hstart : forall k : json -> M response,
             (x <- lift (get_json env) ;; k x) w = k data w).
  { intros k. rewrite bind_eq. unfold lift. now rewrite Hjson. }
  destruct data as [|b|n|s|items|members].
  - rewrite ask_question_missing_key by (left; exact Hjson).
    eexists _, _; split; [reflexivity | now left].
  - unfold ask_question, ask_try. rewrite Hstart.
    destruct b; eexists _, _; (split; [reflexivity | auto]).
  - unfold ask_question, ask_try. rewrite Hstart. rewrite bind_eq.
    cbn [Py.truthy]. destruct (n =? 0);
      eexists _, _; (split; [reflexivity | auto]).
  - unfold ask_question, ask_try. rewrite Hstart. rewrite bind_eq.
    cbn [Py.truthy]. destruct (String.eqb s ""); cbn [negb];
      [eexists _, _; split; [reflexivity | now left]|].
    rewrite bind_eq. unfold lift at 1. cbn [Py.contains].
    destruct (Py.is_substring "question" s);
      eexists _, _; (split; [reflexivity | auto]).
  - unfold ask_question, ask_try. rewrite Hstart. rewrite bind_eq.
    destruct items as [|i items]; [eexists _, _; split; [reflexivity | now left]|].
    cbn [Py.truthy negb]. rewrite bind_eq. unfold lift at 1. cbn [Py.contains].
    destruct (existsb _ (i :: items));
      eexists _, _; (split; [reflexivity | auto]).
  - cbn [has_question] in Hno.
    destruct (Py.lookup "question" members) eqn:Hq; [discriminate|].
    rewrite ask_question_missing_key
      by (right; exists members; split; [exact Hjson | exact Hq]).
    eexists _, _; split; [reflexivity | now left].
Qed.

End AskPaths.

(** Every request to [/ask] follows one of three paths: it is turned away
    before the store is read; it passes validation and stops at line 106,
    108 or 109 with the world untouched; or it reaches the completion
    chain. *)
Lemma ask_question_cases (env : ask_env) (w : world) :
  (has_question (get_json env) = false /\
   exists (b : body) (status : Z),
     ask_question env w = ((b, status), w) /\ (status = 400 \/ status = 500))
  \/
  (exists members q e,
     get_json env = Val (JObj members) /\
     Py.lookup "question" members = Some q /\
     (console env (received_text (resolved_session members) q) = Raise e
      \/ chat_histories w = EmptyList
      \/ Py.hashable (resolved_session members) = false) /\
     ask_question env w = (error_response e, w))
  \/
  (exists members q items,
     get_json env = Val (JObj members) /\
     Py.lookup "question" members = Some q /\
     chat_histories w = Dict items /\
     Py.hashable (resolved_session members) = true /\
     console env (received_text (resolved_session members) q) = Val tt /\
     let session_id := resolved_session members in
     let old := stored_turns session_id items in
     let prompt := contextualize (build_context old) q in
     let log := (invoked w ++ [prompt])%list in
     ask_question env w =
       match chain_invoke env prompt with
       | Raise e => (error_response e, mk_world (Dict (with_session session_id items)) log)
       | Val content =>
           match console env (response_text session_id content) with
           | Raise e =>
               (error_response e, mk_world (Dict (with_session session_id items)) log)
           | Val _ =>
               let new := (old ++ [mk_turn q content (now env)])%list in
               let w' := mk_world (Dict (dict_set session_id new
                                                  (with_session session_id items)))
                                  log in
               if (MAX_HISTORY_LENGTH <? List.length new)%nat
               then (error_response (TypeError "unhashable type: 'slice'"), w')
               else (success_response content session_id new, w')
           end
       end).
Proof.
  destruct (has_question (get_json env)) eqn:Hhas.
  2: { left. split; [reflexivity|]. now apply ask_question_rejected. }
  right. unfold has_question in Hhas.
  destruct (get_json env) as [[| | | | |members]|] eqn:Hjson; try discriminate.
  destruct (Py.lookup "question" members) as [q|] eqn:Hq; [|discriminate].
  destruct (console env (received_text (resolved_session members) q)) as [[]|e] eqn:Hprint.
  2: { left. exists members, q, e.
       split; [reflexivity|]. split; [exact Hq|]. split; [now left|].
       now apply (ask_question_unprinted env w members q e). }
  destruct (chat_histories w) as [items|] eqn:Hstore.
  - destruct (Py.hashable (resolved_session members)) eqn:Hhash.
    + right. exists members, q, items. repeat (split; [assumption || reflexivity|]).
      now apply ask_question_dict.
    + left. exists members, q, (unhashable (resolved_session members)).
      split; [reflexivity|]. split; [exact Hq|]. split; [now right; right|].
      now apply (ask_question_unhashable env w members q items).
  - left. destruct (ask_question_cleared env w members q Hjson Hq Hstore Hprint) as [e He].
    exists members, q, e.
    split; [reflexivity|]. split; [exact Hq|]. split; [now right; left | exact He].
Qed.

(** ** String bookkeeping *)

Lemma append_assoc (a b c : string) : ((a ++ b) ++ c = a ++ (b ++ c))%string.
Proof. induction a as [|x a IH]; simpl; [reflexivity | now rewrite IH]. Qed.

Lemma append_nil_r (a : string) : (a ++ "" = a)%string.
Proof. induction a as [|x a IH]; simpl; [reflexivity | now rewrite IH]. Qed.

Lemma snoc_inv {A : Type} (l : list A) (x y : A) : (l ++ [x] = l ++ [y])%list -> x = y.
Proof. intros H. apply app_inv_head in H. now injection H. Qed.

Lemma not_own_extension {A : Type} (l : list A) (x : A) : l <> (l ++ [x])%list.
Proof.
  intros H. apply (f_equal (@List.length A)) in H.
  rewrite length_app in H. simpl in H. lia.
Qed.

(** ** The contextualized prompt *)

Lemma add_entry_two_lines (context : string) (entry : Turn) :
  add_entry context entry = context ++ two_lines entry.
Proof.
  unfold add_entry, two_lines, line. f_equal.
  rewrite !append_assoc. reflexivity.
Qed.

Lemma fold_add_entry (turns : list Turn) (context : string) :
  fold_left add_entry turns context = context ++ flatten (map two_lines turns).
Proof.
  revert context. induction turns as [|t rest IH]; intros context; simpl.
  - now rewrite append_nil_r.
  - now rewrite IH, add_entry_two_lines, append_assoc.
Qed.

Lemma contextualize_build_context (turns : list Turn) (q : json) :
  contextualize (build_context turns) q = expected_prompt turns q.
Proof.
  destruct turns as [|t rest]; [reflexivity|].
  unfold build_context, expected_prompt.
  rewrite fold_add_entry. unfold contextualize.
  replace (Py.str_truthy _) with true by reflexivity.
  now rewrite append_assoc.
Qed.

(** C4.  Whatever turn list and new question: the prompt the code builds is
    the new question unchanged for an empty list, and otherwise the header
    line, then "Human: <question>" and "AI: <answer>" for each stored turn
    in stored order with the full texts, then "Human: <new_question>"; and
    whenever [ask_question] calls the chain, it is with that prompt, built
    from the turns the session held when the request arrived. *)
Theorem provider_prompt_format :
  (forall (session_turns : list Turn) (new_question : json),
     contextualize (build_context session_turns) new_question
     = expected_prompt session_turns new_question)
  /\
  (forall (env : ask_env) (w : world) (prompt : json),
     invoked (snd (ask_question env w)) = (invoked w ++ [prompt])%list ->
     exists members q items,
       get_json env = Val (JObj members) /\
       Py.lookup "question" members = Some q /\
       chat_histories w = Dict items /\
       prompt = expected_prompt (stored_turns (resolved_session members) items) q).
Proof.
  split; [exact contextualize_build_context|].
  intros env w prompt Hlog.
  destruct (ask_question_cases env w)
    as [[_ [b [st [E _]]]] | [[members [q [e [_ [_ [_ E]]]]]]
                              | [members [q [items [Hj [Hq [Hd [Hh [Hprint E]]]]]]]]]].
  - rewrite E in Hlog. simpl in Hlog. now apply not_own_extension in Hlog.
  - rewrite E in Hlog. simpl in Hlog. now apply not_own_extension in Hlog.
  - exists members, q, items. repeat (split; [assumption|]).
    cbv zeta in E. rewrite E in Hlog. rewrite <- contextualize_build_context.
    destruct (chain_invoke env _) as [content|e].
    + destruct (console env (response_text _ _)) as [[]|e]; [destruct (MAX_HISTORY_LENGTH <? _)%nat|];
        simpl in Hlog; symmetry; exact (snoc_inv _ _ _ Hlog).
    + simpl in Hlog. symmetry; exact (snoc_inv _ _ _ Hlog).
Qed.

Lemma provider_prompt_format_witness :
  invoked (snd (ask_question second_ask after_first_ask))
  = (invoked after_first_ask
     ++ [JStr (line "previous conversation:" ++ line "Human: What is 2+2?"
               ++ line "AI: 4" ++ "Human: And 3+3?")])%list
  /\ exists members q items,
       get_json second_ask = Val (JObj members) /\
       Py.lookup "question" members = Some q /\
       chat_histories after_first_ask = Dict items /\
       JStr (line "previous conversation:" ++ line "Human: What is 2+2?"
             ++ line "AI: 4" ++ "Human: And 3+3?")
       = expected_prompt (stored_turns (resolved_session members) items) q.
Proof.
  split; [reflexivity|].
  apply (proj2 provider_prompt_format second_ask after_first_ask). reflexivity.
Defined.

(** ** The frame of [ask_question] *)

Lemma with_session_other (s t : json) (items : list (json * list Turn)) :
  Py.key_eqb s t = false -> dict_get t (with_session s items) = dict_get t items.
Proof.
  intros Hst. unfold with_session. destruct (dict_get s items); [reflexivity|].
  now apply dict_get_set_other.
Qed.

(** Lines 108-109 add at most one item, with an empty list, at the end. *)
Lemma with_session_shape (s : json) (items : list (json * list Turn)) :
  with_session s items = items \/
  (dict_get s items = None /\ with_session s items = (items ++ [(s, [])])%list).
Proof.
  unfold with_session. destruct (dict_get s items) eqn:E; [now left|].
  right. split; [reflexivity|]. now apply dict_set_new.
Qed.

(** A request leaves alone every session but the one it names. *)
Lemma ask_question_frame (env : ask_env) (w : world) (t : json) :
  (forall members, get_json env = Val (JObj members) ->
                   Py.key_eqb (resolved_session members) t = false) ->
  history_of t (snd (ask_question env w)) = history_of t w.
Proof.
  intros Hother.
  destruct (ask_question_cases env w)
    as [[_ [b [st [E _]]]] | [[members [q [e [_ [_ [_ E]]]]]]
                              | [members [q [items [Hj [Hq [Hd [Hh [Hprint E]]]]]]]]]].
  - now rewrite E.
  - now rewrite E.
  - cbv zeta in E. rewrite E. specialize (Hother members Hj).
    unfold history_of at 2. rewrite Hd.
    destruct (chain_invoke env _) as [content|e].
    + destruct (console env (response_text _ _)) as [[]|e].
      * destruct (MAX_HISTORY_LENGTH <? _)%nat; unfold history_of; simpl;
          now rewrite dict_get_set_other, with_session_other.
      * unfold history_of; simpl. now rewrite with_session_other.
    + unfold history_of; simpl. now rewrite with_session_other.
Qed.

(** C10.  A request to [/ask] for session id [s] (successful or not) leaves
    the history stored under every other session id [t] exactly as it was;
    [t] differs from [s] in the sense of Python's [!=], the comparison the
    dict applies to its keys, which on strings is plain inequality. *)
Theorem ask_leaves_other_sessions_alone
        (env : ask_env) (w : world) (members : list (string * json)) (s t : json) :
  get_json env = Val (JObj members) ->
  resolved_session members = s ->
  Py.key_eqb s t = false ->
  history_of t (snd (ask_question env w)) = history_of t w.
Proof.
  intros Hj Hs Hst. apply ask_question_frame.
  intros members' Hj'. rewrite Hj in Hj'. injection Hj' as <-. now rewrite Hs.
Qed.

Lemma ask_leaves_other_sessions_alone_witness :
  get_json second_ask = Val (JObj [("question", JStr "And 3+3?");
                                   ("session_id", JStr "default_session")])
  /\ Py.key_eqb (JStr "default_session") (JStr "other") = false
  /\ history_of (JStr "other") two_sessions
     = Some [mk_turn (JStr "Capital of France?") "Paris" "2024-05-01 10:00:03.000004"]
  /\ history_of (JStr "other") (snd (ask_question second_ask two_sessions))
     = history_of (JStr "other") two_sessions.
Proof.
  split; [reflexivity|]. split; [reflexivity|]. split; [reflexivity|].
  apply (ask_leaves_other_sessions_alone second_ask two_sessions
           [("question", JStr "And 3+3?"); ("session_id", JStr "default_session")]
           (JStr "default_session") (JStr "other")); reflexivity.
Defined.

(** ** Requests that are turned away *)

(** X18.  A request whose body is not a JSON object with a ['question'] member
    gets a 400 or a 500, the chain is not called and the store is untouched
    (so [/sessions] answers as before); the status is 400 whenever the body
    is absent ([null]) or is a JSON object. *)
Theorem ask_without_question_is_turned_away (env : ask_env) (w : world) :
  has_question (get_json env) = false ->
  snd (ask_question env w) = w
  /\ fst (handle Sessions (snd (ask_question env w))) = fst (handle Sessions w)
  /\ (status_of (fst (ask_question env w)) = 400
      \/ status_of (fst (ask_question env w)) = 500)
  /\ (get_json env = Val JNull \/ (exists members, get_json env = Val (JObj members)) ->
      fst (ask_question env w) = missing_question).
Proof.
  intros Hno.
  assert (Hlast : get_json env = Val JNull
                  \/ (exists members, get_json env = Val (JObj members)) ->
                  fst (ask_question env w) = missing_question).
  { intros Hbody. rewrite ask_question_missing_key; [reflexivity|].
    destruct Hbody as [Hnull | [members Hobj]]; [now left | right].
    exists members. split; [exact Hobj|].
    rewrite Hobj in Hno. simpl in Hno.
    now destruct (Py.lookup "question" members). }
  destruct (ask_question_rejected env w Hno) as [b [st [E Hst]]].
  rewrite E in *. cbn [fst snd status_of] in *.
  split; [reflexivity|]. split; [reflexivity|]. split; [exact Hst | exact Hlast].
Qed.

Lemma ask_without_question_is_turned_away_witness :
  has_question (get_json no_question_ask) = false
  /\ snd (ask_question no_question_ask two_sessions) = two_sessions
  /\ fst (ask_question no_question_ask two_sessions) = missing_question.
Proof.
  split; [reflexivity|].
  destruct (ask_without_question_is_turned_away no_question_ask two_sessions eq_refl)
    as [Hworld [_ [_ Hstatus]]].
  split; [exact Hworld|].
  apply Hstatus. right. eexists. reflexivity.
Defined.

(** C5 fails on the code.  Whatever the chain, the clock, the console and
    the world: the bodies [5] and [true] carry no ['question'] and are
    answered with 500, because the membership test of line 100 itself
    raises [TypeError] on them and the catch-all clause answers; every other
    body without the key, [null], [0], [false], the empty string, list and
    object, a string or a list that does not hold the word, an object
    without the key, takes the 400 branch of that same line.  In each case
    the world is as before. *)
Theorem truthy_number_body_is_answered_500
        (chain : json -> outcome string) (clock : string)
        (shown : string -> outcome unit) (w : world) :
  let ask body := ask_question (mk_ask_env (Val body) chain clock shown) w in
  ask (JNum 5)
  = (([("error",
        RText "Unexpected error: TypeError: argument of type 'int' is not iterable")],
      500), w)
  /\ ask (JBool true)
     = (([("error",
           RText "Unexpected error: TypeError: argument of type 'bool' is not iterable")],
         500), w)
  /\ ask JNull = (([("error", RText "Missing 'question' in request body")], 400), w)
  /\ ask (JNum 0) = (([("error", RText "Missing 'question' in request body")], 400), w)
  /\ ask (JBool false) = (([("error", RText "Missing 'question' in request body")], 400), w)
  /\ ask (JStr "") = (([("error", RText "Missing 'question' in request body")], 400), w)
  /\ ask (JArr []) = (([("error", RText "Missing 'question' in request body")], 400), w)
  /\ ask (JObj []) = (([("error", RText "Missing 'question' in request body")], 400), w)
  /\ ask (JStr "hello") = (([("error", RText "Missing 'question' in request body")], 400), w)
  /\ ask (JArr [JNum 1]) = (([("error", RText "Missing 'question' in request body")], 400), w)
  /\ ask (JObj [("prompt", JStr "hi")])
     = (([("error", RText "Missing 'question' in request body")], 400), w).
Proof.
  cbv zeta. repeat split.
Qed.

(** C9, as stated, fails three times.  The first body is a JSON object with
    the key, but its session id is a list, which line 108 cannot hash: the
    handler answers 500 and the chain is never called.  The second body has
    the key, a string session id and a dict store, but its question holds a
    character the console cannot show: the [print] of line 106 raises, the
    answer is 500 and the chain is never called.  The third body, the number
    5, lacks the key, and yet the 400 branch is not taken: line 100 raises
    and the answer is 500. *)
Lemma presence_check_exceptions :
  (has_question (get_json list_session_ask) = true
   /\ status_of (fst (ask_question list_session_ask initial_world)) = 500
   /\ invoked (snd (ask_question list_session_ask initial_world)) = [])
  /\
  (has_question (get_json accented_question_ask) = true
   /\ Py.hashable (resolved_session [("question", JStr accented)]) = true
   /\ chat_histories initial_world = Dict []
   /\ status_of (fst (ask_question accented_question_ask initial_world)) = 500
   /\ invoked (snd (ask_question accented_question_ask initial_world)) = [])
  /\
  (has_question (get_json number_body_ask) = false
   /\ status_of (fst (ask_question number_body_ask initial_world)) <> 400).
Proof.
  split; [|split].
  - split; [reflexivity|]. split; reflexivity.
  - repeat (split; [reflexivity|]). reflexivity.
  - split; [reflexivity | discriminate].
Qed.

(** C9, amended.  Validation looks at the presence of the key only: a JSON
    object body with a ['question'] member, whatever its value, never takes
    the 400 branch, and when the console takes the text of line 106, the
    session id is hashable and the store is still a dict, the chain is
    called once, with the prompt built from that value (the value itself
    for a session without turns).  For a body that is absent or a JSON
    object, the 400 branch is taken exactly when the body is absent, empty
    or lacks the key. *)
Theorem validation_checks_presence_only :
  (forall (env : ask_env) (w : world) (members : list (string * json)) (q : json),
     get_json env = Val (JObj members) ->
     Py.lookup "question" members = Some q ->
     status_of (fst (ask_question env w)) <> 400
     /\ forall items,
          chat_histories w = Dict items ->
          Py.hashable (resolved_session members) = true ->
          console env (received_text (resolved_session members) q) = Val tt ->
          invoked (snd (ask_question env w))
          = (invoked w
             ++ [expected_prompt (stored_turns (resolved_session members) items) q])%list
          /\ (stored_turns (resolved_session members) items = [] ->
              invoked (snd (ask_question env w)) = (invoked w ++ [q])%list))
  /\
  (forall (env : ask_env) (w : world),
     get_json env = Val JNull \/ (exists members, get_json env = Val (JObj members)) ->
     (status_of (fst (ask_question env w)) = 400
      <-> get_json env = Val JNull
          \/ exists members, get_json env = Val (JObj members)
                             /\ (members = [] \/ Py.lookup "question" members = None))).
Proof.
  split.
  - intros env w members q Hj Hq.
    assert (Hlog : forall items,
               chat_histories w = Dict items ->
               Py.hashable (resolved_session members) = true ->
               console env (received_text (resolved_session members) q) = Val tt ->
               invoked (snd (ask_question env w))
               = (invoked w
                  ++ [expected_prompt (stored_turns (resolved_session members) items) q])%list).
    { intros items Hd Hh Hp.
      rewrite (ask_question_dict env w members q items Hj Hq Hd Hh Hp).
      cbv zeta. rewrite contextualize_build_context.
      destruct (chain_invoke env _); [|reflexivity].
      destruct (console env (response_text _ _)) as [[]|]; [|reflexivity].
      now destruct (_ <? _)%nat. }
    split.
    + destruct (ask_question_cases env w)
        as [[Hno _] | [[m' [q' [e [_ [_ [_ E]]]]]]
                       | [m' [q' [items [Hj' [Hq' [Hd [Hh [Hprint E]]]]]]]]]].
      * rewrite Hj in Hno. simpl in Hno. rewrite Hq in Hno. discriminate.
      * rewrite E. discriminate.
      * cbv zeta in E. rewrite E.
        destruct (chain_invoke env _); [|discriminate].
        destruct (console env (response_text _ _)) as [[]|]; [|discriminate].
        destruct (MAX_HISTORY_LENGTH <? _)%nat; discriminate.
    + intros items Hd Hh Hp. split; [now apply Hlog|].
      intros Hnone. rewrite (Hlog items Hd Hh Hp), Hnone. reflexivity.
  - intros env w Hbody. split.
    + intros H400.
      destruct Hbody as [Hnull | [members Hj]]; [now left | right].
      exists members. split; [exact Hj|]. right.
      destruct (Py.lookup "question" members) as [q|] eqn:Hq; [|reflexivity].
      exfalso.
      destruct (ask_question_cases env w)
        as [[Hno _] | [[m' [q' [e [_ [_ [_ E]]]]]]
                       | [m' [q' [items [Hj' [Hq' [Hd [Hh [Hprint E]]]]]]]]]].
      * rewrite Hj in Hno. simpl in Hno. rewrite Hq in Hno. discriminate.
      * rewrite E in H400. discriminate.
      * cbv zeta in E. rewrite E in H400.
        destruct (chain_invoke env _); [|discriminate].
        destruct (console env (response_text _ _)) as [[]|]; [|discriminate].
        destruct (MAX_HISTORY_LENGTH <? _)%nat; discriminate.
    + intros Hmiss. rewrite ask_question_missing_key; [reflexivity|].
      destruct Hmiss as [Hnull | [members [Hj [Hempty | Hq]]]]; [now left | |].
      * right. exists members. split; [exact Hj|]. now subst members.
      * right. exists members. now split.
Qed.

Lemma validation_checks_presence_only_witness :
  (get_json null_question_ask = Val (JObj [("question", JNull)])
   /\ Py.lookup "question" [("question", JNull)] = Some JNull
   /\ status_of (fst (ask_question null_question_ask initial_world)) = 200
   /\ invoked (snd (ask_question null_question_ask initial_world)) = [JNull]
   /\ status_of (fst (ask_question null_question_ask initial_world)) <> 400)
  /\
  ((get_json no_question_ask = Val JNull
    \/ (exists members, get_json no_question_ask = Val (JObj members))) /\
   status_of (fst (ask_question no_question_ask initial_world)) = 400 /\
   (status_of (fst (ask_question no_question_ask initial_world)) = 400
    <-> get_json no_question_ask = Val JNull
        \/ exists members, get_json no_question_ask = Val (JObj members)
                           /\ (members = [] \/ Py.lookup "question" members = None))).
Proof.
  split.
  - destruct (proj1 validation_checks_presence_only null_question_ask initial_world
                    [("question", JNull)] JNull eq_refl eq_refl) as [Hnot400 Hcalled].
    split; [reflexivity|]. split; [reflexivity|]. split; [reflexivity|].
    split; [|exact Hnot400].
    exact (proj2 (Hcalled [] eq_refl eq_refl eq_refl) eq_refl).
  - assert (H : get_json no_question_ask = Val JNull
                \/ (exists members, get_json no_question_ask = Val (JObj members)))
      by (right; eexists; reflexivity).
    split; [exact H|]. split; [reflexivity|].
    exact (proj2 validation_checks_presence_only no_question_ask initial_world H).
Defined.

(** ** When the completion chain fails *)

(** C3, as stated, fails: the chain is called and raises, the handler
    answers 500, and yet the store has gained the session ["s1"], which
    lines 108-109 created before the call; [/sessions] now counts it. *)
Lemma failed_call_leaves_new_session :
  chain_invoke failing_ask (JStr "hello") = Raise quota_error
  /\ invoked (snd (ask_question failing_ask initial_world)) = [JStr "hello"]
  /\ status_of (fst (ask_question failing_ask initial_world)) = 500
  /\ history_of (JStr "s1") initial_world = None
  /\ history_of (JStr "s1") (snd (ask_question failing_ask initial_world)) = Some []
  /\ fst (handle Sessions initial_world)
     = Served ([("sessions", RKeys []); ("count", RInt 0)], 200)
  /\ fst (handle Sessions (snd (ask_question failing_ask initial_world)))
     = Served ([("sessions", RKeys [JStr "s1"]); ("count", RInt 1)], 200).
Proof. repeat (split; [reflexivity|]). reflexivity. Qed.

Lemma error_message_includes_text (e : exn) :
  exists before : string, error_message e = before ++ text e.
Proof.
  unfold error_message. destruct (is_key_error e).
  - now exists "KeyError: ".
  - exists ("Unexpected error: " ++ type_name e ++ ": ").
    now rewrite !append_assoc.
Qed.

(** C3, amended.  When the call to the chain fails, the handler answers 500
    with a body that includes the exception's text, and no turn is recorded:
    the store is as before, or is the dict it was with one item added at the
    end, the request's session id with an empty list, when that id was not
    known. *)
Theorem failed_call_records_no_turn
        (env : ask_env) (w : world) (prompt : json) (e : exn) :
  invoked (snd (ask_question env w)) = (invoked w ++ [prompt])%list ->
  chain_invoke env prompt = Raise e ->
  fst (ask_question env w) = ([("error", RText (error_message e))], 500)
  /\ (exists before : string, error_message e = before ++ text e)
  /\ (chat_histories (snd (ask_question env w)) = chat_histories w
      \/ exists items members,
           chat_histories w = Dict items /\
           get_json env = Val (JObj members) /\
           dict_get (resolved_session members) items = None /\
           chat_histories (snd (ask_question env w))
           = Dict (items ++ [(resolved_session members, [])])).
Proof.
  intros Hlog Hfail.
  destruct (ask_question_cases env w)
    as [[_ [b [st [E _]]]] | [[members [q [e' [_ [_ [_ E]]]]]]
                              | [members [q [items [Hj [Hq [Hd [Hh [Hprint E]]]]]]]]]].
  - rewrite E in Hlog. simpl in Hlog. now apply not_own_extension in Hlog.
  - rewrite E in Hlog. simpl in Hlog. now apply not_own_extension in Hlog.
  - cbv zeta in E.
    assert (Hp : contextualize
                   (build_context (stored_turns (resolved_session members) items)) q
                 = prompt).
    { rewrite E in Hlog.
      destruct (chain_invoke env _) as [content|e0].
      - destruct (console env (response_text _ _)) as [[]|e1]; [destruct (_ <? _)%nat|];
          simpl in Hlog; exact (snoc_inv _ _ _ Hlog).
      - simpl in Hlog. exact (snoc_inv _ _ _ Hlog). }
    rewrite Hp, Hfail in E. rewrite E. cbn [fst snd chat_histories].
    split; [reflexivity|]. split; [apply error_message_includes_text|].
    rewrite Hd.
    destruct (with_session_shape (resolved_session members) items) as [Same | [Hnew Hadd]].
    + left. now rewrite Same.
    + right. exists items, members. now rewrite Hadd.
Qed.

Lemma failed_call_records_no_turn_witness :
  invoked (snd (ask_question failing_ask two_sessions))
  = (invoked two_sessions ++ [JStr "hello"])%list
  /\ chain_invoke failing_ask (JStr "hello") = Raise quota_error
  /\ fst (ask_question failing_ask two_sessions)
     = ([("error", RText "Unexpected error: RateLimitError: quota exceeded")], 500)
  /\ history_of (JStr "other") (snd (ask_question failing_ask two_sessions))
     = history_of (JStr "other") two_sessions.
Proof.
  split; [reflexivity|]. split; [reflexivity|]. split; [|reflexivity].
  apply (failed_call_records_no_turn failing_ask two_sessions (JStr "hello") quota_error);
    reflexivity.
Defined.

(** ** A request that succeeds *)

(** Whenever the chain is called and answers, and the console takes the
    text of line 130, the turn is appended, with the question as it came in
    the body. *)
Lemma answered_call_appends_the_turn
      (env : ask_env) (w : world) (prompt : json) (content : string) :
  invoked (snd (ask_question env w)) = (invoked w ++ [prompt])%list ->
  chain_invoke env prompt = Val content ->
  exists members q items,
    get_json env = Val (JObj members) /\
    Py.lookup "question" members = Some q /\
    chat_histories w = Dict items /\
    let session_id := resolved_session members in
    let old := stored_turns session_id items in
    let new := (old ++ [mk_turn q content (now env)])%list in
    prompt = expected_prompt old q /\
    (console env (response_text session_id content) = Val tt ->
     history_of session_id (snd (ask_question env w)) = Some new /\
     fst (ask_question env w)
     = (if (MAX_HISTORY_LENGTH <? List.length new)%nat
        then error_response (TypeError "unhashable type: 'slice'")
        else success_response content session_id new)).
Proof.
  intros Hlog Hcall.
  destruct (ask_question_cases env w)
    as [[_ [b [st [E _]]]] | [[members [q [e' [_ [_ [_ E]]]]]]
                              | [members [q [items [Hj [Hq [Hd [Hh [Hprint E]]]]]]]]]].
  - rewrite E in Hlog. simpl in Hlog. now apply not_own_extension in Hlog.
  - rewrite E in Hlog. simpl in Hlog. now apply not_own_extension in Hlog.
  - cbv zeta in E. rewrite contextualize_build_context in E.
    assert (Hp : expected_prompt (stored_turns (resolved_session members) items) q
                 = prompt).
    { rewrite E in Hlog.
      destruct (chain_invoke env _) as [c|e0].
      - destruct (console env (response_text _ _)) as [[]|e1]; [destruct (_ <? _)%nat|];
          simpl in Hlog; exact (snoc_inv _ _ _ Hlog).
      - simpl in Hlog. exact (snoc_inv _ _ _ Hlog). }
    rewrite Hp, Hcall in E.
    exists members, q, items. cbv zeta.
    repeat (split; [assumption || (symmetry; assumption)|]).
    intros Hshown. rewrite Hshown in E.
    rewrite E. destruct (_ <? _)%nat; cbn [fst snd]; (split; [|reflexivity]);
      unfold history_of; cbn [chat_histories]; now apply dict_get_set_same.
Qed.

(** C7.  When [/ask] answers 200, the session's stored list is what it was
    with one turn added at the end, holding the question as it came in the
    body (not the prompt sent to the chain), the chain's answer and the
    clock reading; the body carries the answer, the status ["success"], the
    session id and that stored list, which is within the cap. *)
Theorem successful_ask_records_the_original_question (env : ask_env) (w : world) :
  status_of (fst (ask_question env w)) = 200 ->
  exists members q items content,
    get_json env = Val (JObj members) /\
    Py.lookup "question" members = Some q /\
    chat_histories w = Dict items /\
    let session_id := resolved_session members in
    let old := stored_turns session_id items in
    let new := (old ++ [mk_turn q content (now env)])%list in
    invoked (snd (ask_question env w)) = (invoked w ++ [expected_prompt old q])%list /\
    chain_invoke env (expected_prompt old q) = Val content /\
    history_of session_id (snd (ask_question env w)) = Some new /\
    fst (ask_question env w)
    = ([("answer", RText content);
        ("status", RText "success");
        ("session_id", RJson session_id);
        ("history", RTurns new)], 200) /\
    (List.length new <= MAX_HISTORY_LENGTH)%nat.
Proof.
  intros H200.
  destruct (ask_question_cases env w)
    as [[_ [b [st [E [Hst | Hst]]]]] | [[members [q [e' [_ [_ [_ E]]]]]]
                              | [members [q [items [Hj [Hq [Hd [Hh [Hprint E]]]]]]]]]].
  - rewrite E in H200. simpl in H200. congruence.
  - rewrite E in H200. simpl in H200. congruence.
  - rewrite E in H200. discriminate.
  - cbv zeta in E. rewrite contextualize_build_context in E.
    destruct (chain_invoke env _) as [content|e] eqn:Hcall.
    2: { rewrite E in H200. discriminate. }
    destruct (console env (response_text _ _)) as [[]|e].
    2: { rewrite E in H200. discriminate. }
    destruct (_ <? _)%nat eqn:Hcap.
    { rewrite E in H200. discriminate. }
    exists members, q, items, content. cbv zeta.
    repeat (split; [assumption|]). rewrite E. cbn [fst snd invoked].
    split; [reflexivity|]. split; [exact Hcall|].
    split; [|split; [reflexivity|]].
    + unfold history_of. cbn [chat_histories]. now apply dict_get_set_same.
    + apply Nat.ltb_ge in Hcap. exact Hcap.
Qed.

Lemma successful_ask_records_the_original_question_witness :
  status_of (fst (ask_question second_ask after_first_ask)) = 200
  /\ history_of (JStr "default_session") (snd (ask_question second_ask after_first_ask))
     = Some [mk_turn (JStr "What is 2+2?") "4" "2024-05-01 10:00:00.000001";
             mk_turn (JStr "And 3+3?") "6" "2024-05-01 10:00:07.000002"]
  /\ exists members q items content,
       get_json second_ask = Val (JObj members) /\
       Py.lookup "question" members = Some q /\
       chat_histories after_first_ask = Dict items /\
       let session_id := resolved_session members in
       let old := stored_turns session_id items in
       let new := (old ++ [mk_turn q content (now second_ask)])%list in
       invoked (snd (ask_question second_ask after_first_ask))
       = (invoked after_first_ask ++ [expected_prompt old q])%list /\
       chain_invoke second_ask (expected_prompt old q) = Val content /\
       history_of session_id (snd (ask_question second_ask after_first_ask)) = Some new /\
       fst (ask_question second_ask after_first_ask)
       = ([("answer", RText content);
           ("status", RText "success");
           ("session_id", RJson session_id);
           ("history", RTurns new)], 200) /\
       (List.length new <= MAX_HISTORY_LENGTH)%nat.
Proof.
  split; [reflexivity|]. split; [reflexivity|].
  apply (successful_ask_records_the_original_question second_ask after_first_ask).
  reflexivity.
Defined.

(** ** Reading the history of a session *)

Lemma get_history_unknown (arg : option string) (w : world) :
  history_of (JStr (arg_session_id arg)) w = None ->
  get_history arg w = (Val (no_history_response (arg_session_id arg)), w).
Proof.
  unfold history_of, get_history. intros Hnone.
  rewrite bind_eq. unfold hist_contains.
  destruct (chat_histories w) as [items|]; [|reflexivity].
  cbn [Py.hashable]. now rewrite Hnone.
Qed.

(** [get_history] only reads. *)
Lemma get_history_reads_only (arg : option string) (w : world) :
  snd (get_history arg w) = w.
Proof.
  unfold get_history. rewrite bind_eq. unfold hist_contains.
  destruct (chat_histories w) as [items|] eqn:Hstore; [|reflexivity].
  cbn [Py.hashable].
  destruct (dict_get (JStr (arg_session_id arg)) items) as [h|] eqn:Hget; [|reflexivity].
  rewrite bind_eq. unfold hist_getitem at 1. rewrite Hstore.
  cbn [Py.hashable]. rewrite Hget. cbv beta iota.
  rewrite bind_eq. unfold hist_getitem at 1. rewrite Hstore.
  cbn [Py.hashable]. now rewrite Hget.
Qed.

Lemma get_sessions_reads_only (w : world) : snd (get_sessions w) = w.
Proof.
  unfold get_sessions. rewrite bind_eq. unfold hist_keys.
  destruct (chat_histories w) eqn:Hstore; [|reflexivity].
  rewrite bind_eq. unfold hist_len. now rewrite Hstore.
Qed.

Lemma serve_reads_only (view : M response) (w : world) :
  snd (view w) = w -> snd (serve view w) = w.
Proof. unfold serve. now destruct (view w) as [[r|e] w']. Qed.

Lemma handle_ask (env : ask_env) (w : world) :
  handle (Ask env) w = (Served (fst (ask_question env w)), snd (ask_question env w)).
Proof. unfold handle. now destruct (ask_question env w). Qed.

(** A session nobody asked about stays unknown. *)
Lemma handle_keeps_unknown (session_id : string) (req : request) (w : world) :
  asks_about session_id req = false ->
  history_of (JStr session_id) w = None ->
  history_of (JStr session_id) (snd (handle req w)) = None.
Proof.
  intros Hreq Hnone. destruct req as [env|arg| |random|].
  - rewrite handle_ask. cbn [snd].
    destruct (has_question (get_json env)) eqn:Hhas.
    + rewrite ask_question_frame; [exact Hnone|].
      intros members Hj. simpl in Hreq. rewrite Hj in Hreq.
      rewrite <- Hj, Hhas in Hreq. exact Hreq.
    + destruct (ask_question_rejected env w Hhas) as [b [st [E _]]].
      now rewrite E.
  - cbn [handle]. now rewrite serve_reads_only by apply get_history_reads_only.
  - cbn [handle]. now rewrite serve_reads_only by apply get_sessions_reads_only.
  - exact Hnone.
  - unfold handle, serve, clear_history. rewrite bind_eq. unfold hist_len.
    now destruct (chat_histories w).
Qed.

Lemma run_keeps_unknown (session_id : string) (reqs : list request) (w : world) :
  forallb (fun req => negb (asks_about session_id req)) reqs = true ->
  history_of (JStr session_id) w = None ->
  history_of (JStr session_id) (snd (run reqs w)) = None.
Proof.
  revert w. induction reqs as [|req rest IH]; intros w Hall Hnone; [exact Hnone|].
  simpl in Hall. apply andb_true_iff in Hall as [Hreq Hrest].
  apply negb_true_iff in Hreq.
  pose proof (handle_keeps_unknown session_id req w Hreq Hnone) as Hstep.
  simpl. destruct (handle req w) as [r w']. simpl in Hstep.
  specialize (IH w' Hrest Hstep).
  destruct (run rest w') as [rs w'']. exact IH.
Qed.

(** C6.  For a session id the store does not hold, [GET /history] answers
    200 with an empty history, count 0 and the informational ['error']
    field, and the world after the read is the world before it: no entry is
    created.  That is the case of every session id for which no valid
    [/ask] was served since start-up. *)
Theorem history_of_unseen_session :
  (forall (w : world) (arg : option string),
     history_of (JStr (arg_session_id arg)) w = None ->
     handle (History arg) w
     = (Served ([("history", RTurns []);
                 ("count", RInt 0);
                 ("session_id", RJson (JStr (arg_session_id arg)));
                 ("error", RText ("No chat history found for session "
                                  ++ arg_session_id arg))], 200), w))
  /\
  (forall (reqs : list request) (arg : option string),
     forallb (fun req => negb (asks_about (arg_session_id arg) req)) reqs = true ->
     let w := snd (run reqs initial_world) in
     handle (History arg) w
     = (Served ([("history", RTurns []);
                 ("count", RInt 0);
                 ("session_id", RJson (JStr (arg_session_id arg)));
                 ("error", RText ("No chat history found for session "
                                  ++ arg_session_id arg))], 200), w)).
Proof.
  assert (Hstate : forall (w : world) (arg : option string),
             history_of (JStr (arg_session_id arg)) w = None ->
             handle (History arg) w
             = (Served (no_history_response (arg_session_id arg)), w)).
  { intros w arg Hnone. unfold handle, serve.
    now rewrite (get_history_unknown arg w Hnone). }
  split; [exact Hstate|].
  intros reqs arg Hnever w. apply Hstate.
  apply run_keeps_unknown; [exact Hnever | reflexivity].
Qed.

Lemma history_of_unseen_session_witness :
  forallb (fun req => negb (asks_about "never-seen" req))
          [Ask first_ask; Ask other_ask; History None; Sessions; Ask second_ask] = true
  /\ history_of (JStr "never-seen") two_sessions = None
  /\ handle (History (Some "never-seen")) two_sessions
     = (Served ([("history", RTurns []);
                 ("count", RInt 0);
                 ("session_id", RJson (JStr "never-seen"));
                 ("error", RText "No chat history found for session never-seen")], 200),
        two_sessions)
  /\ handle (History (Some "never-seen"))
            (snd (run [Ask first_ask; Ask other_ask; History None; Sessions; Ask second_ask]
                      initial_world))
     = (Served ([("history", RTurns []);
                 ("count", RInt 0);
                 ("session_id", RJson (JStr "never-seen"));
                 ("error", RText "No chat history found for session never-seen")], 200),
        snd (run [Ask first_ask; Ask other_ask; History None; Sessions; Ask second_ask]
                 initial_world)).
Proof.
  split; [reflexivity|]. split; [reflexivity|]. split.
  - apply (proj1 history_of_unseen_session two_sessions (Some "never-seen")).
    reflexivity.
  - apply (proj2 history_of_unseen_session
             [Ask first_ask; Ask other_ask; History None; Sessions; Ask second_ask]
             (Some "never-seen")).
    reflexivity.
Defined.

(** ** The retention cap *)

(** Past the cap, when the console takes both texts, the trim at line 140
    is reached, and it raises before it assigns: the turn appended at line
    132 stays, nothing is dropped. *)
Lemma ask_past_the_cap (env : ask_env) (w : world)
      (members : list (string * json)) (q : json) (items : list (json * list Turn))
      (content : string) :
  get_json env = Val (JObj members) ->
  Py.lookup "question" members = Some q ->
  chat_histories w = Dict items ->
  Py.hashable (resolved_session members) = true ->
  console env (received_text (resolved_session members) q) = Val tt ->
  console env (response_text (resolved_session members) content) = Val tt ->
  let old := stored_turns (resolved_session members) items in
  chain_invoke env (expected_prompt old q) = Val content ->
  (MAX_HISTORY_LENGTH <= List.length old)%nat ->
  status_of (fst (ask_question env w)) = 500
  /\ history_of (resolved_session members) (snd (ask_question env w))
     = Some (old ++ [mk_turn q content (now env)])%list.
Proof.
  intros Hj Hq Hd Hh Hp1 Hp2 old Hcall Hfull.
  rewrite (ask_question_dict env w members q items Hj Hq Hd Hh Hp1). cbv zeta.
  rewrite contextualize_build_context. fold old. rewrite Hcall, Hp2.
  replace (_ <? _)%nat with true.
  - split; [reflexivity|]. unfold history_of. cbn [snd chat_histories].
    now apply dict_get_set_same.
  - symmetry. apply Nat.ltb_lt. rewrite length_app. simpl. lia.
Qed.

(** C1 fails on the code.  Eleven requests for one session, the chain
    answering each: the first ten get 200, the eleventh gets 500, and the
    session then holds all eleven turns, the oldest included. *)
Theorem eleventh_ask_exceeds_the_cap :
  map status_served (fst (run eleven_asks initial_world))
  = [Some 200; Some 200; Some 200; Some 200; Some 200;
     Some 200; Some 200; Some 200; Some 200; Some 200; Some 500]
  /\ history_of (JStr "s") (snd (run eleven_asks initial_world))
     = Some (map numbered_turn (seq 1 11))
  /\ (MAX_HISTORY_LENGTH < List.length (map numbered_turn (seq 1 11)))%nat
  /\ nth_error (fst (run eleven_asks initial_world)) 10
     = Some (Served ([("error",
                       RText "Unexpected error: TypeError: unhashable type: 'slice'")],
                     500)).
Proof.
  split; [vm_compute; reflexivity|].
  split; [vm_compute; reflexivity|].
  split; [vm_compute; lia | vm_compute; reflexivity].
Qed.

(** ** Clearing the store *)

(** C2 fails on the code.  [clear_history] rebinds the global to a list:
    whatever the world before, [/sessions] then lets an [AttributeError]
    escape instead of answering an empty list with count 0, and an [/ask]
    that a fresh store answers with 200 is answered with 500, the chain not
    being called. *)
Theorem clear_all_leaves_a_list (w : world) :
  let cleared := snd (handle ClearAllHistory w) in
  chat_histories cleared = EmptyList
  /\ chat_histories initial_world = Dict []
  /\ handle Sessions cleared
     = (Escaped (AttributeError "'list' object has no attribute 'keys'"), cleared)
  /\ handle Sessions initial_world
     = (Served ([("sessions", RKeys []); ("count", RInt 0)], 200), initial_world)
  /\ ask_question first_ask cleared
     = (([("error", RText "Unexpected error: TypeError: list indices must be integers or slices, not str")],
         500), cleared)
  /\ status_of (fst (ask_question first_ask initial_world)) = 200.
Proof.
  assert (Hc : snd (handle ClearAllHistory w) = mk_world EmptyList (invoked w)).
  { unfold handle, serve, clear_history. rewrite bind_eq. unfold hist_len.
    now destruct (chat_histories w). }
  cbv zeta. rewrite Hc. repeat (split; [reflexivity|]). reflexivity.
Qed.

(** ** Session identifiers *)

Lemma hex_value_digit (d : nat) : (d < 16)%nat -> hex_value (Py.hex_digit d) = d.
Proof.
  intros Hd. do 16 (destruct d as [|d]; [reflexivity|]). lia.
Qed.

Lemma length_hex_digits (k : nat) (n : Z) : String.length (hex_digits k n) = k.
Proof. induction k as [|k IH]; simpl; [reflexivity | now rewrite IH]. Qed.

(** The digits determine the number up to [16 ^ k]. *)
Lemma hex_digits_inj (k : nat) (n m : Z) :
  hex_digits k n = hex_digits k m -> n mod 16 ^ Z.of_nat k = m mod 16 ^ Z.of_nat k.
Proof.
  induction k as [|k IH]; intros Heq.
  - simpl. now rewrite !Z.mod_1_r.
  - cbn [hex_digits] in Heq. injection Heq as Hd Hrest.
    specialize (IH Hrest).
    assert (Hrange : forall x, (Z.to_nat ((x / 16 ^ Z.of_nat k) mod 16) < 16)%nat).
    { intros x. pose proof (Z.mod_pos_bound (x / 16 ^ Z.of_nat k) 16 eq_refl). lia. }
    apply (f_equal hex_value) in Hd.
    rewrite !hex_value_digit in Hd by apply Hrange.
    assert (Hdigit : (n / 16 ^ Z.of_nat k) mod 16 = (m / 16 ^ Z.of_nat k) mod 16).
    { pose proof (Z.mod_pos_bound (n / 16 ^ Z.of_nat k) 16 eq_refl).
      pose proof (Z.mod_pos_bound (m / 16 ^ Z.of_nat k) 16 eq_refl). lia. }
    rewrite Nat2Z.inj_succ, Z.pow_succ_r by lia.
    rewrite (Z.mul_comm 16).
    rewrite !Z.rem_mul_r by lia.
    now rewrite IH, Hdigit.
Qed.

Lemma dashed_inj (s t : string) :
  String.length s = 32%nat -> String.length t = 32%nat ->
  dashed s = dashed t -> s = t.
Proof.
  intros Hs Ht.
  do 32 (destruct s as [|? s]; [discriminate|]). destruct s; [|discriminate].
  do 32 (destruct t as [|? t]; [discriminate|]). destruct t; [|discriminate].
  unfold dashed. cbn. intros H. injection H. intros. subst. reflexivity.
Qed.

Lemma uuid_str_inj (i j : Z) :
  0 <= i < 2 ^ 128 -> 0 <= j < 2 ^ 128 -> uuid_str i = uuid_str j -> i = j.
Proof.
  intros Hi Hj Heq. unfold uuid_str in Heq.
  apply dashed_inj in Heq; try apply length_hex_digits.
  apply hex_digits_inj in Heq.
  change (16 ^ Z.of_nat 32) with (2 ^ 128) in Heq.
  now rewrite !Z.mod_small in Heq.
Qed.

Lemma below_pow2_of_bits (x : Z) (n : Z) :
  0 <= n -> 0 <= x -> (forall i, n <= i -> Z.testbit x i = false) -> x < 2 ^ n.
Proof.
  intros Hn Hx Hbits.
  destruct (Z.eq_dec x 0) as [->|Hnz]; [now apply Z.pow_pos_nonneg|].
  apply Z.log2_lt_pow2; [lia|].
  destruct (Z_lt_le_dec (Z.log2 x) n) as [Hlt|Hge]; [exact Hlt|].
  specialize (Hbits (Z.log2 x) Hge). rewrite Z.bit_log2 in Hbits by lia. discriminate.
Qed.

Lemma uuid4_range (random : Z) : 0 <= random < 2 ^ 128 -> 0 <= uuid4 random < 2 ^ 128.
Proof.
  intros [Hlo Hhi]. unfold uuid4. split.
  - apply Z.lor_nonneg. split; [|now vm_compute].
    apply Z.land_nonneg. left. apply Z.lor_nonneg. split; [|now vm_compute].
    apply Z.land_nonneg. now left.
  - apply below_pow2_of_bits; [lia | |].
    + apply Z.lor_nonneg. split; [|now vm_compute].
      apply Z.land_nonneg. left. apply Z.lor_nonneg. split; [|now vm_compute].
      apply Z.land_nonneg. now left.
    + intros i Hi.
      assert (Hr : Z.testbit random i = false).
      { destruct (Z.eq_dec random 0) as [->|Hnz]; [apply Z.bits_0|].
        apply Z.bits_above_log2; [lia|].
        assert (Z.log2 random < 128) by (apply Z.log2_lt_pow2; lia). lia. }
      assert (Hb : Z.testbit (Z.shiftl 0x8000 48) i = false).
      { apply Z.bits_above_log2; [now vm_compute|].
        change (Z.log2 (Z.shiftl 0x8000 48)) with 63. lia. }
      assert (Hd : Z.testbit (Z.shiftl 4 76) i = false).
      { apply Z.bits_above_log2; [now vm_compute|].
        change (Z.log2 (Z.shiftl 4 76)) with 78. lia. }
      rewrite Z.lor_spec, Z.land_spec, Z.lor_spec, Z.land_spec, Hr, Hb, Hd.
      reflexivity.
Qed.

(** [uuid4] passes on every drawn bit it does not overwrite, so two draws
    give the same UUID exactly when they agree on the kept bits. *)
Lemma uuid4_kept_bits (random : Z) :
  Z.land (uuid4 random) kept_bits = Z.land random kept_bits.
Proof.
  unfold uuid4.
  rewrite Z.land_lor_distr_l.
  replace (Z.land (Z.shiftl 4 76) kept_bits) with 0 by reflexivity.
  rewrite Z.lor_0_r, <- Z.land_assoc.
  replace (Z.land (Z.lnot (Z.shiftl 0xf000 64)) kept_bits) with kept_bits by reflexivity.
  rewrite Z.land_lor_distr_l.
  replace (Z.land (Z.shiftl 0x8000 48) kept_bits) with 0 by reflexivity.
  rewrite Z.lor_0_r, <- Z.land_assoc.
  replace (Z.land (Z.lnot (Z.shiftl 0xc000 48)) kept_bits) with kept_bits by reflexivity.
  reflexivity.
Qed.

Lemma uuid4_from_kept_bits (random : Z) :
  uuid4 random
  = Z.lor (Z.land random kept_bits) (Z.lor (Z.shiftl 0x8000 48) (Z.shiftl 4 76)).
Proof.
  unfold uuid4.
  rewrite Z.land_lor_distr_l, <- Z.land_assoc.
  replace (Z.land (Z.lnot (Z.shiftl 0xc000 48)) (Z.lnot (Z.shiftl 0xf000 64)))
    with kept_bits by reflexivity.
  replace (Z.land (Z.shiftl 0x8000 48) (Z.lnot (Z.shiftl 0xf000 64)))
    with (Z.shiftl 0x8000 48) by reflexivity.
  now rewrite Z.lor_assoc.
Qed.

Lemma uuid4_eq_iff (random1 random2 : Z) :
  uuid4 random1 = uuid4 random2
  <-> Z.land random1 kept_bits = Z.land random2 kept_bits.
Proof.
  split; intros H.
  - now rewrite <- (uuid4_kept_bits random1), <- (uuid4_kept_bits random2), H.
  - now rewrite (uuid4_from_kept_bits random1), (uuid4_from_kept_bits random2), H.
Qed.

(** C8.  Two calls to [/generate-session] whose random draws give different
    UUID values answer with different session ids: the 128-bit identifier
    is rendered as text without loss. *)
Theorem distinct_uuids_give_distinct_session_ids (random1 random2 : Z) (w : world) :
  0 <= random1 < 2 ^ 128 ->
  0 <= random2 < 2 ^ 128 ->
  uuid4 random1 <> uuid4 random2 ->
  exists id1 id2 : string,
    run [GenerateSession random1; GenerateSession random2] w
    = ([Served ([("session_id", RText id1); ("status", RText "success")], 200);
        Served ([("session_id", RText id2); ("status", RText "success")], 200)], w)
    /\ id1 <> id2.
Proof.
  intros H1 H2 Hneq.
  exists (uuid_str (uuid4 random1)), (uuid_str (uuid4 random2)).
  split; [reflexivity|].
  intros Heq. apply Hneq.
  apply uuid_str_inj; [now apply uuid4_range | now apply uuid4_range | exact Heq].
Qed.

Lemma distinct_uuids_give_distinct_session_ids_witness :
  uuid4 0x0123456789abcdef0123456789abcdef <> uuid4 0xfedcba9876543210fedcba9876543210
  /\ exists id1 id2 : string,
       run [GenerateSession 0x0123456789abcdef0123456789abcdef;
            GenerateSession 0xfedcba9876543210fedcba9876543210] initial_world
       = ([Served ([("session_id", RText id1); ("status", RText "success")], 200);
           Served ([("session_id", RText id2); ("status", RText "success")], 200)],
          initial_world)
       /\ id1 <> id2.
Proof.
  assert (Hneq : uuid4 0x0123456789abcdef0123456789abcdef
                 <> uuid4 0xfedcba9876543210fedcba9876543210)
    by (vm_compute; discriminate).
  split; [exact Hneq|].
  apply (distinct_uuids_give_distinct_session_ids
           0x0123456789abcdef0123456789abcdef 0xfedcba9876543210fedcba9876543210
           initial_world); [split; [lia | reflexivity] | split; [lia | reflexivity] | exact Hneq].
Defined.

(** * Further properties of the handlers *)

(** ** More on dict keys *)

Lemma key_eqb_congr (k s t : json) :
  Py.key_eqb s t = true -> Py.key_eqb k s = Py.key_eqb k t.
Proof.
  intros Hst. apply key_eqb_class in Hst as [Est Ns].
  destruct (Py.key_eqb k s) eqn:Hks, (Py.key_eqb k t) eqn:Hkt; try reflexivity.
  - apply key_eqb_class in Hks as [E N]. rewrite <- Hkt. symmetry.
    apply key_eqb_class. split; congruence.
  - apply key_eqb_class in Hkt as [E N]. rewrite <- Hks.
    apply key_eqb_class. split; congruence.
Qed.

Lemma dict_get_eqv (s t : json) (items : list (json * list Turn)) :
  Py.key_eqb s t = true -> dict_get s items = dict_get t items.
Proof.
  intros Hst. induction items as [|[k h] rest IH]; simpl; [reflexivity|].
  now rewrite (key_eqb_congr k s t Hst), IH.
Qed.

Lemma keys_dict_set (k : json) (h : list Turn) (items : list (json * list Turn)) :
  map fst (dict_set k h items)
  = match dict_get k items with
    | Some _ => map fst items
    | None => (map fst items ++ [k])%list
    end.
Proof.
  induction items as [|[k' h'] rest IH]; simpl; [reflexivity|].
  destruct (Py.key_eqb k' k); simpl; [reflexivity|].
  rewrite IH. now destruct (dict_get k rest).
Qed.

Lemma keys_with_session (k : json) (items : list (json * list Turn)) :
  map fst (with_session k items)
  = match dict_get k items with
    | Some _ => map fst items
    | None => (map fst items ++ [k])%list
    end.
Proof.
  unfold with_session. destruct (dict_get k items) eqn:E; [reflexivity|].
  now rewrite keys_dict_set, E.
Qed.

(** ** One request to [/ask] *)

(** Turned away, the request gets a body with the single field ['error']. *)
Lemma ask_question_rejected_shape (env : ask_env) (w : world) :
  has_question (get_json env) = false ->
  exists (msg : string) (status : Z),
    ask_question env w = (([("error", RText msg)], status), w)
    /\ (status = 400 \/ status = 500).
Proof.
  intros Hno.
  destruct (get_json env) as [data|e] eqn:Hjson.
  2: { unfold ask_question, ask_try. rewrite bind_eq. unfold lift at 1.
       rewrite Hjson. eexists _, _; split; [reflexivity | now right]. }
  assert (Hstart : forall k : json -> M response,
             (x <- lift (get_json env) ;; k x) w = k data w).
  { intros k. rewrite bind_eq. unfold lift. now rewrite Hjson. }
  destruct data as [|b|n|s|items|members].
  - rewrite ask_question_missing_key by (left; exact Hjson).
    eexists _, _; split; [reflexivity | now left].
  - unfold ask_question, ask_try. rewrite Hstart.
    destruct b; eexists _, _; (split; [reflexivity | auto]).
  - unfold ask_question, ask_try. rewrite Hstart. rewrite bind_eq.
    cbn [Py.truthy]. destruct (n =? 0);
      eexists _, _; (split; [reflexivity | auto]).
  - unfold ask_question, ask_try. rewrite Hstart. rewrite bind_eq.
    cbn [Py.truthy]. destruct (String.eqb s ""); cbn [negb];
      [eexists _, _; split; [reflexivity | now left]|].
    rewrite bind_eq. unfold lift at 1. cbn [Py.contains].
    destruct (Py.is_substring "question" s);
      eexists _, _; (split; [reflexivity | auto]).
  - unfold ask_question, ask_try. rewrite Hstart. rewrite bind_eq.
    destruct items as [|i items]; [eexists _, _; split; [reflexivity | now left]|].
    cbn [Py.truthy negb]. rewrite bind_eq. unfold lift at 1. cbn [Py.contains].
    destruct (existsb _ (i :: items));
      eexists _, _; (split; [reflexivity | auto]).
  - cbn [has_question] in Hno.
    destruct (Py.lookup "question" members) eqn:Hq; [discriminate|].
    rewrite ask_question_missing_key
      by (right; exists members; split; [exact Hjson | exact Hq]).
    eexists _, _; split; [reflexivity | now left].
Qed.

(** X1.  [/ask] answers with 200, 400 or 500 and nothing else, and an answer
    other than 200 has a body made of the single field ['error']. *)
Theorem ask_answers_200_400_or_500 (env : ask_env) (w : world) :
  let r := fst (ask_question env w) in
  (status_of r = 200 \/ status_of r = 400 \/ status_of r = 500)
  /\ (status_of r <> 200 -> exists msg, fst r = [("error", RText msg)]).
Proof.
  cbv zeta.
  destruct (ask_question_cases env w)
    as [[Hno _] | [[members [q [e' [_ [_ [_ E]]]]]]
                   | [members [q [items [Hj [Hq [Hd [Hh [Hprint E]]]]]]]]]].
  - destruct (ask_question_rejected_shape env w Hno) as [msg [st [E Hst]]].
    rewrite E. cbn. split; [tauto|]. intros _. now exists msg.
  - rewrite E. split; [now right; right|]. intros _. now eexists.
  - cbv zeta in E. rewrite E.
    destruct (chain_invoke env _).
    + destruct (console env (response_text _ _)) as [[]|]; [destruct (_ <? _)%nat|].
      * split; [now right; right|]. intros _. now eexists.
      * split; [now left|]. intros H. now contradiction H.
      * split; [now right; right|]. intros _. now eexists.
    + split; [now right; right|]. intros _. now eexists.
Qed.

Lemma ask_answers_200_400_or_500_witness :
  status_of (fst (ask_question failing_ask two_sessions)) <> 200
  /\ exists msg, fst (fst (ask_question failing_ask two_sessions)) = [("error", RText msg)].
Proof.
  assert (H : status_of (fst (ask_question failing_ask two_sessions)) <> 200)
    by discriminate.
  split; [exact H|].
  exact (proj2 (ask_answers_200_400_or_500 failing_ask two_sessions) H).
Defined.

(** X2.  A request to [/ask] calls the chain once or not at all, and when it
    does not call it the whole world, the store included, is as before. *)
Theorem ask_calls_the_chain_at_most_once (env : ask_env) (w : world) :
  snd (ask_question env w) = w
  \/ exists prompt, invoked (snd (ask_question env w)) = (invoked w ++ [prompt])%list.
Proof.
  destruct (ask_question_cases env w)
    as [[_ [b [st [E _]]]] | [[members [q [e' [_ [_ [_ E]]]]]]
                              | [members [q [items [Hj [Hq [Hd [Hh [Hprint E]]]]]]]]]].
  - left. now rewrite E.
  - left. now rewrite E.
  - right. cbv zeta in E. rewrite E. eexists.
    destruct (chain_invoke env _);
      [destruct (console env (response_text _ _)) as [[]|]; [destruct (_ <? _)%nat|]|]; reflexivity.
Qed.

(** X3.  A request to [/ask] never removes or reorders sessions and never
    replaces the dict: the session ids afterwards are those before, in the
    same order, followed at most by the request's own id when it was new. *)
Theorem ask_keeps_the_sessions_in_place (env : ask_env) (w : world) :
  (forall items, chat_histories w = Dict items ->
                 exists items', chat_histories (snd (ask_question env w)) = Dict items')
  /\ (session_keys (snd (ask_question env w)) = session_keys w
      \/ exists members,
           get_json env = Val (JObj members) /\
           history_of (resolved_session members) w = None /\
           session_keys (snd (ask_question env w))
           = (session_keys w ++ [resolved_session members])%list).
Proof.
  destruct (ask_question_cases env w)
    as [[_ [b [st [E _]]]] | [[members [q [e' [_ [_ [_ E]]]]]]
                              | [members [q [items [Hj [Hq [Hd [Hh [Hprint E]]]]]]]]]].
  - rewrite E. cbn [snd]. split; [intros items Hd; now exists items | now left].
  - rewrite E. cbn [snd]. split; [intros items Hd; now exists items | now left].
  - cbv zeta in E.
    assert (Hkeys : exists items',
               chat_histories (snd (ask_question env w)) = Dict items'
               /\ map fst items' = map fst (with_session (resolved_session members) items)).
    { rewrite E.
      destruct (chain_invoke env _);
        [destruct (console env (response_text _ _)) as [[]|]; [destruct (_ <? _)%nat|]|];
        eexists; (split; [reflexivity|]); cbn [snd chat_histories];
        try reflexivity;
        now rewrite keys_dict_set, with_session_get. }
    destruct Hkeys as [items' [Hd' Hk]].
    split; [intros ? _; now exists items'|].
    unfold session_keys, history_of. rewrite Hd', Hd, Hk, keys_with_session.
    destruct (dict_get (resolved_session members) items) eqn:Hg; [now left|].
    right. exists members. now rewrite Hg.
Qed.

Lemma ask_keeps_the_sessions_in_place_witness :
  chat_histories two_sessions
  = Dict [(JStr "default_session",
           [mk_turn (JStr "What is 2+2?") "4" "2024-05-01 10:00:00.000001"]);
          (JStr "other",
           [mk_turn (JStr "Capital of France?") "Paris" "2024-05-01 10:00:03.000004"])]
  /\ session_keys (snd (ask_question failing_ask two_sessions))
     = [JStr "default_session"; JStr "other"; JStr "s1"]
  /\ exists items', chat_histories (snd (ask_question failing_ask two_sessions)) = Dict items'.
Proof.
  split; [reflexivity|]. split; [reflexivity|].
  apply (proj1 (ask_keeps_the_sessions_in_place failing_ask two_sessions)
               [(JStr "default_session",
                 [mk_turn (JStr "What is 2+2?") "4" "2024-05-01 10:00:00.000001"]);
                (JStr "other",
                 [mk_turn (JStr "Capital of France?") "Paris"
                          "2024-05-01 10:00:03.000004"])]).
  reflexivity.
Defined.

(** X4.  A request to [/ask] never drops or rewrites a stored turn: under
    every session id, the history afterwards is the history before with at
    most one turn added at the end. *)
Theorem ask_never_drops_a_turn (env : ask_env) (w : world) (t : json) (h : list Turn) :
  history_of t w = Some h ->
  exists added,
    history_of t (snd (ask_question env w)) = Some (h ++ added)%list
    /\ (List.length added <= 1)%nat.
Proof.
  intros Hbefore.
  destruct (ask_question_cases env w)
    as [[_ [b [st [E _]]]] | [[members [q [e' [_ [_ [_ E]]]]]]
                              | [members [q [items [Hj [Hq [Hd [Hh [Hprint E]]]]]]]]]].
  - exists []. rewrite E, app_nil_r. cbn [snd]. split; [exact Hbefore | simpl; lia].
  - exists []. rewrite E, app_nil_r. cbn [snd]. split; [exact Hbefore | simpl; lia].
  - destruct (Py.key_eqb (resolved_session members) t) eqn:Hst.
    + (* the request's own session *)
      unfold history_of in Hbefore. rewrite Hd in Hbefore.
      rewrite <- (dict_get_eqv _ _ items Hst) in Hbefore.
      assert (Hold : stored_turns (resolved_session members) items = h).
      { unfold stored_turns. now rewrite Hbefore. }
      assert (Hws : with_session (resolved_session members) items = items).
      { unfold with_session. now rewrite Hbefore. }
      cbv zeta in E. rewrite Hold, Hws in E. rewrite E.
      unfold history_of.
      destruct (chain_invoke env _);
        [destruct (console env (response_text _ _)) as [[]|]; [destruct (_ <? _)%nat|]|];
        cbn [snd chat_histories];
        rewrite <- (dict_get_eqv _ _ _ Hst).
      * eexists. split; [now apply dict_get_set_same | simpl; lia].
      * eexists. split; [now apply dict_get_set_same | simpl; lia].
      * exists []. rewrite app_nil_r. split; [exact Hbefore | simpl; lia].
      * exists []. rewrite app_nil_r. split; [exact Hbefore | simpl; lia].
    + exists []. rewrite app_nil_r. split; [|simpl; lia].
      rewrite <- Hbefore. apply ask_question_frame.
      intros members' Hj'. rewrite Hj in Hj'. now injection Hj' as <-.
Qed.

Lemma ask_never_drops_a_turn_witness :
  history_of (JStr "default_session") after_first_ask
  = Some [mk_turn (JStr "What is 2+2?") "4" "2024-05-01 10:00:00.000001"]
  /\ exists added,
       history_of (JStr "default_session") (snd (ask_question second_ask after_first_ask))
       = Some ([mk_turn (JStr "What is 2+2?") "4" "2024-05-01 10:00:00.000001"] ++ added)%list
       /\ (List.length added <= 1)%nat.
Proof.
  split; [reflexivity|].
  apply (ask_never_drops_a_turn second_ask after_first_ask (JStr "default_session")).
  reflexivity.
Defined.

(** ** Reading histories *)

Lemma get_history_spec (arg : option string) (w : world) :
  get_history arg w
  = (Val (history_response (arg_session_id arg)
                           (history_of (JStr (arg_session_id arg)) w)), w).
Proof.
  unfold get_history, history_of, history_response.
  rewrite bind_eq. unfold hist_contains.
  destruct (chat_histories w) as [items|] eqn:Hstore; [|reflexivity].
  cbn [Py.hashable].
  destruct (dict_get (JStr (arg_session_id arg)) items) as [h|] eqn:Hget; [|reflexivity].
  rewrite bind_eq. unfold hist_getitem at 1. rewrite Hstore.
  cbn [Py.hashable]. rewrite Hget. cbv beta iota.
  rewrite bind_eq. unfold hist_getitem at 1. rewrite Hstore.
  cbn [Py.hashable]. now rewrite Hget.
Qed.

(** X5.  [GET /history] never fails and never writes, whatever the store has
    become: it answers 200, the world is as before, the count is the number
    of turns returned, and the turns are those stored for the session, or
    none, with the ['error'] note, when the store does not hold it. *)
Theorem history_always_answers_200 (arg : option string) (w : world) :
  exists (h : list Turn) (note : body),
    handle (History arg) w
    = (Served (("history", RTurns h)
               :: ("count", RInt (Z.of_nat (List.length h)))
               :: ("session_id", RJson (JStr (arg_session_id arg)))
               :: note, 200), w)
    /\ (history_of (JStr (arg_session_id arg)) w = Some h /\ note = []
        \/ history_of (JStr (arg_session_id arg)) w = None /\ h = []
           /\ note = [("error", RText ("No chat history found for session "
                                       ++ arg_session_id arg))]).
Proof.
  unfold handle, serve. rewrite get_history_spec.
  destruct (history_of (JStr (arg_session_id arg)) w) as [h|].
  - exists h, []. split; [reflexivity | now left].
  - eexists [], _. split; [reflexivity | right; repeat split].
Qed.

(** X6.  What [/ask] returns as history on a 200 is what [GET /history]
    returns next for the same session id, with the matching count; a body
    without session id and a query without one meet in the default
    session. *)
Theorem history_after_successful_ask
        (env : ask_env) (w : world) (members : list (string * json)) (arg : option string) :
  get_json env = Val (JObj members) ->
  resolved_session members = JStr (arg_session_id arg) ->
  status_of (fst (ask_question env w)) = 200 ->
  exists content new,
    fst (ask_question env w)
    = ([("answer", RText content);
        ("status", RText "success");
        ("session_id", RJson (JStr (arg_session_id arg)));
        ("history", RTurns new)], 200)
    /\ handle (History arg) (snd (ask_question env w))
       = (Served ([("history", RTurns new);
                   ("count", RInt (Z.of_nat (List.length new)));
                   ("session_id", RJson (JStr (arg_session_id arg)))], 200),
          snd (ask_question env w)).
Proof.
  intros Hj Hs H200.
  destruct (ask_question_cases env w)
    as [[_ [b [st [E [Hst | Hst]]]]] | [[m' [q [e' [_ [_ [_ E]]]]]]
                              | [m' [q [items [Hj' [Hq [Hd [Hh [Hprint E]]]]]]]]]].
  - rewrite E in H200. simpl in H200. congruence.
  - rewrite E in H200. simpl in H200. congruence.
  - rewrite E in H200. discriminate.
  - rewrite Hj in Hj'. injection Hj' as <-. rewrite Hs in *.
    cbv zeta in E.
    destruct (chain_invoke env _) as [content|e].
    2: { rewrite E in H200. discriminate. }
    destruct (console env (response_text _ _)) as [[]|e].
    2: { rewrite E in H200. discriminate. }
    destruct (_ <? _)%nat.
    { rewrite E in H200. discriminate. }
    rewrite E. cbn [fst snd]. eexists _, _. split; [reflexivity|].
    unfold handle, serve. rewrite get_history_spec.
    unfold history_of. cbn [chat_histories].
    now rewrite dict_get_set_same.
Qed.

Lemma history_after_successful_ask_witness :
  get_json first_ask = Val (JObj [("question", JStr "What is 2+2?")])
  /\ status_of (fst (ask_question first_ask two_sessions)) = 200
  /\ exists content new,
       fst (ask_question first_ask two_sessions)
       = ([("answer", RText content);
           ("status", RText "success");
           ("session_id", RJson (JStr "default_session"));
           ("history", RTurns new)], 200)
       /\ handle (History None) (snd (ask_question first_ask two_sessions))
          = (Served ([("history", RTurns new);
                      ("count", RInt (Z.of_nat (List.length new)));
                      ("session_id", RJson (JStr "default_session"))], 200),
             snd (ask_question first_ask two_sessions)).
Proof.
  split; [reflexivity|]. split; [reflexivity|].
  apply (history_after_successful_ask first_ask two_sessions
           [("question", JStr "What is 2+2?")] None); reflexivity.
Defined.

Lemma key_eqb_non_string (k : json) (s : string) :
  (forall s', k <> JStr s') -> Py.key_eqb k (JStr s) = false.
Proof.
  intros Hk. destruct k as [|[]| |s'| |]; try reflexivity.
  now contradiction (Hk s').
Qed.

(** X7.  Histories kept under a session id that is not a string (a number, a
    boolean or null in the body) are out of reach of [GET /history], whose
    session id is always text: such a request to [/ask] changes no answer of
    [GET /history]. *)
Theorem history_cannot_read_non_string_sessions
        (env : ask_env) (w : world) (members : list (string * json)) (arg : option string) :
  get_json env = Val (JObj members) ->
  (forall s, resolved_session members <> JStr s) ->
  fst (handle (History arg) (snd (ask_question env w))) = fst (handle (History arg) w).
Proof.
  intros Hj Hns. unfold handle, serve. rewrite !get_history_spec. cbn [fst].
  rewrite ask_question_frame; [reflexivity|].
  intros m' Hj'. rewrite Hj in Hj'. injection Hj' as <-.
  now apply key_eqb_non_string.
Qed.

Lemma history_cannot_read_non_string_sessions_witness :
  status_of (fst (ask_question numeric_session_ask two_sessions)) = 200
  /\ history_of (JNum 1) (snd (ask_question numeric_session_ask two_sessions))
     = Some [mk_turn (JStr "hi") "hello" "2024-05-01 10:00:09.000001"]
  /\ fst (handle (History (Some "1")) (snd (ask_question numeric_session_ask two_sessions)))
     = fst (handle (History (Some "1")) two_sessions).
Proof.
  split; [reflexivity|]. split; [reflexivity|].
  apply (history_cannot_read_non_string_sessions numeric_session_ask two_sessions
           [("question", JStr "hi"); ("session_id", JNum 1)] (Some "1"));
    [reflexivity | intros s; discriminate].
Defined.

(** ** Several requests *)

Lemma run_cons (req : request) (rest : list request) (w : world) :
  run (req :: rest) w
  = (fst (handle req w) :: fst (run rest (snd (handle req w))),
     snd (run rest (snd (handle req w)))).
Proof.
  simpl. destruct (handle req w) as [r w']. simpl.
  now destruct (run rest w') as [rs w''].
Qed.

Lemma asked_valid (env : ask_env) (members : list (string * json)) (q : json) :
  get_json env = Val (JObj members) -> Py.lookup "question" members = Some q ->
  asked env = q.
Proof. intros Hj Hq. unfold asked. now rewrite Hj, Hq. Qed.

(** X8.  Up to the cap, requests for one session, each answered by the
    chain and each with a console that takes the two texts printed, are all
    answered with 200 and leave the session's history extended by one turn
    per request, oldest first, each turn holding the request's question and
    clock reading. *)
Theorem asks_within_the_cap
        (session_id : json) (envs : list ask_env) (w : world)
        (items : list (json * list Turn)) :
  Py.hashable session_id = true ->
  chat_histories w = Dict items ->
  Forall (valid_ask session_id) envs ->
  Forall answers envs ->
  Forall shows_all envs ->
  (List.length (stored_turns session_id items) + List.length envs
   <= MAX_HISTORY_LENGTH)%nat ->
  exists items' turns,
    chat_histories (snd (run (map Ask envs) w)) = Dict items'
    /\ stored_turns session_id items' = (stored_turns session_id items ++ turns)%list
    /\ map question turns = map asked envs
    /\ map timestamp turns = map now envs
    /\ map status_served (fst (run (map Ask envs) w)) = map (fun _ => Some 200) envs.
Proof.
  intros Hh. revert w items.
  induction envs as [|env rest IH]; intros w items Hd Hvalid Hans Hshow Hcap.
  - exists items, []. rewrite app_nil_r. now repeat split.
  - inversion Hvalid as [|? ? [members [q [Hj [Hq Hs]]]] Hvalid']; subst.
    inversion Hans as [|? ? Henv Hans']; subst.
    inversion Hshow as [|? ? Hshown Hshow']; subst.
    set (session_id := resolved_session members) in *.
    set (old := stored_turns session_id items) in *.
    destruct (Henv (contextualize (build_context old) q)) as [content Hcall].
    pose proof (ask_question_dict env w members q items Hj Hq Hd Hh (Hshown _)) as E.
    cbv zeta in E. fold session_id old in E. rewrite Hcall, (Hshown _) in E.
    simpl List.length in Hcap.
    replace (_ <? _)%nat with false in E
      by (symmetry; apply Nat.ltb_ge; rewrite length_app;
          cbn [List.length]; clear -Hcap; lia).
    set (t := mk_turn q content (now env)) in *.
    set (items1 := dict_set session_id (old ++ [t]) (with_session session_id items)) in *.
    assert (Hold1 : stored_turns session_id items1 = (old ++ [t])%list).
    { unfold stored_turns, items1. now rewrite dict_get_set_same. }
    destruct (IH (snd (ask_question env w)) items1) as [items' [turns [Hd' [Hst [Hqs [Hts Hss]]]]]].
    + now rewrite E.
    + exact Hvalid'.
    + exact Hans'.
    + exact Hshow'.
    + rewrite Hold1, length_app. cbn [List.length]. clear -Hcap. lia.
    + exists items', (t :: turns).
      cbn [map]. rewrite run_cons, handle_ask. cbn [fst snd map].
      split; [exact Hd'|]. split.
      { rewrite Hst, Hold1, <- app_assoc. reflexivity. }
      split; [now rewrite Hqs, (asked_valid env members q Hj Hq)|].
      split; [now rewrite Hts|].
      rewrite Hss. f_equal. now rewrite E.
Qed.

Lemma asks_within_the_cap_witness :
  Py.hashable (JStr "default_session") = true
  /\ (List.length (stored_turns (JStr "default_session") [])
      + List.length [first_ask; second_ask] <= MAX_HISTORY_LENGTH)%nat
  /\ exists items' turns,
       chat_histories (snd (run (map Ask [first_ask; second_ask]) initial_world))
       = Dict items'
       /\ stored_turns (JStr "default_session") items'
          = (stored_turns (JStr "default_session") [] ++ turns)%list
       /\ map question turns = map asked [first_ask; second_ask]
       /\ map timestamp turns = map now [first_ask; second_ask]
       /\ map status_served (fst (run (map Ask [first_ask; second_ask]) initial_world))
          = map (fun _ => Some 200) [first_ask; second_ask].
Proof.
  split; [reflexivity|]. split; [unfold MAX_HISTORY_LENGTH; simpl; lia|].
  apply (asks_within_the_cap (JStr "default_session") [first_ask; second_ask]
           initial_world []).
  - reflexivity.
  - reflexivity.
  - repeat constructor; eexists _, _; repeat split.
  - repeat constructor; intros prompt; eexists; reflexivity.
  - repeat constructor; intros text; reflexivity.
  - unfold MAX_HISTORY_LENGTH. simpl. lia.
Defined.

(** ** The store over a run *)

Lemma distinct_keys_snoc (keys : list json) (k : json) :
  distinct_keys keys ->
  Forall (fun k' => Py.key_eqb k' k = false) keys ->
  distinct_keys (keys ++ [k]).
Proof.
  unfold distinct_keys. intros Hd Hk. induction Hd as [|a l Ha Hd IH]; simpl.
  - repeat constructor.
  - inversion Hk as [|? ? Hak Hk']; subst. constructor; [|now apply IH].
    apply Forall_app. split; [exact Ha | now repeat constructor].
Qed.

Lemma dict_get_none_keys (k : json) (items : list (json * list Turn)) :
  dict_get k items = None -> Forall (fun k' => Py.key_eqb k' k = false) (map fst items).
Proof.
  induction items as [|[k' h] rest IH]; simpl; [constructor|].
  destruct (Py.key_eqb k' k) eqn:E; [discriminate|]. intros H. constructor; auto.
Qed.

(** What a request to [/ask] does to the keys of a dict store. *)
Lemma ask_question_keys (env : ask_env) (w : world) (items : list (json * list Turn)) :
  chat_histories w = Dict items ->
  exists items',
    chat_histories (snd (ask_question env w)) = Dict items'
    /\ (map fst items' = map fst items
        \/ exists members,
             get_json env = Val (JObj members) /\
             Py.hashable (resolved_session members) = true /\
             dict_get (resolved_session members) items = None /\
             map fst items' = (map fst items ++ [resolved_session members])%list).
Proof.
  intros Hd.
  destruct (ask_question_cases env w)
    as [[_ [b [st [E _]]]] | [[members [q [e' [_ [_ [_ E]]]]]]
                              | [members [q [items0 [Hj [Hq [Hd0 [Hh [Hprint E]]]]]]]]]].
  - rewrite E. exists items. split; [exact Hd | now left].
  - rewrite E. exists items. split; [exact Hd | now left].
  - rewrite Hd in Hd0. injection Hd0 as <-. cbv zeta in E.
    assert (Hkeys : exists items',
               chat_histories (snd (ask_question env w)) = Dict items'
               /\ map fst items' = map fst (with_session (resolved_session members) items)).
    { rewrite E.
      destruct (chain_invoke env _);
        [destruct (console env (response_text _ _)) as [[]|]; [destruct (_ <? _)%nat|]|];
        eexists; (split; [reflexivity|]); cbn [snd chat_histories];
        try reflexivity;
        now rewrite keys_dict_set, with_session_get. }
    destruct Hkeys as [items' [Hd' Hk]]. exists items'. split; [exact Hd'|].
    rewrite Hk, keys_with_session.
    destruct (dict_get (resolved_session members) items) eqn:Hg; [now left|].
    right. now exists members.
Qed.

Lemma ask_question_on_list (env : ask_env) (w : world) :
  chat_histories w = EmptyList -> snd (ask_question env w) = w.
Proof.
  intros Hl.
  destruct (ask_question_cases env w)
    as [[_ [b [st [E _]]]] | [[members [q [e' [_ [_ [_ E]]]]]]
                              | [members [q [items0 [Hj [Hq [Hd0 [Hh [Hprint E]]]]]]]]]].
  - now rewrite E.
  - now rewrite E.
  - rewrite Hl in Hd0. discriminate.
Qed.

Lemma handle_clear (w : world) :
  handle ClearAllHistory w
  = (Served ([("message", RText ("Chat history cleared for all "
                                 ++ Py.str_int (Z.of_nat (List.length (session_keys w)))
                                 ++ " sessions"));
              ("status", RText "success")], 200),
     mk_world EmptyList (invoked w)).
Proof.
  unfold handle, serve, clear_history, session_keys. rewrite bind_eq. unfold hist_len.
  destruct (chat_histories w); [|reflexivity]. now rewrite length_map.
Qed.

Lemma handle_sessions (w : world) :
  handle Sessions w
  = match chat_histories w with
    | Dict items =>
        (Served ([("sessions", RKeys (map fst items));
                  ("count", RInt (Z.of_nat (List.length (map fst items))))], 200), w)
    | EmptyList => (Escaped (AttributeError "'list' object has no attribute 'keys'"), w)
    end.
Proof.
  unfold handle, serve, get_sessions. rewrite bind_eq. unfold hist_keys.
  destruct (chat_histories w) eqn:Hs; [|reflexivity].
  rewrite bind_eq. unfold hist_len. now rewrite Hs, length_map.
Qed.

(** Every request keeps the store sound, and only clear-all makes it a list. *)
Lemma handle_keeps_sound (req : request) (w : world) :
  sound_store w ->
  sound_store (snd (handle req w))
  /\ (chat_histories (snd (handle req w)) = EmptyList
      <-> chat_histories w = EmptyList \/ is_clear req = true).
Proof.
  intros Hsound. destruct req as [env|arg| |random|].
  - rewrite handle_ask. cbn [snd is_clear].
    destruct (chat_histories w) as [items|] eqn:Hd.
    + destruct (ask_question_keys env w items Hd) as [items' [Hd' Hk]].
      unfold sound_store in *. rewrite Hd in Hsound. rewrite Hd'.
      split; [|split; [discriminate | intros [H|H]; discriminate]].
      destruct Hsound as [Hdist Hhash].
      destruct Hk as [-> | [members [_ [Hh [Hg ->]]]]]; [now split|].
      split.
      * apply distinct_keys_snoc; [exact Hdist | now apply dict_get_none_keys].
      * apply Forall_app. split; [exact Hhash | now repeat constructor].
    + rewrite (ask_question_on_list env w Hd).
      split; [exact Hsound | rewrite Hd; tauto].
  - cbn [handle is_clear].
    rewrite serve_reads_only by apply get_history_reads_only.
    split; [exact Hsound|]. split; [tauto | intros [H|H]; [exact H | discriminate]].
  - cbn [handle is_clear].
    rewrite serve_reads_only by apply get_sessions_reads_only.
    split; [exact Hsound|]. split; [tauto | intros [H|H]; [exact H | discriminate]].
  - cbn. split; [exact Hsound|]. split; [tauto | intros [H|H]; [exact H | discriminate]].
  - rewrite handle_clear. cbn. split; [exact I|]. split; auto.
Qed.

Lemma run_keeps_sound (reqs : list request) (w : world) :
  sound_store w ->
  sound_store (snd (run reqs w))
  /\ (chat_histories (snd (run reqs w)) = EmptyList
      <-> chat_histories w = EmptyList \/ existsb is_clear reqs = true).
Proof.
  revert w. induction reqs as [|req rest IH]; intros w Hsound.
  - cbn. split; [exact Hsound|]. split; [tauto | intros [H|H]; [exact H | discriminate]].
  - rewrite run_cons. cbn [snd existsb].
    destruct (handle_keeps_sound req w Hsound) as [Hs1 Hl1].
    destruct (IH (snd (handle req w)) Hs1) as [Hs2 Hl2].
    split; [exact Hs2|]. rewrite Hl2, Hl1, orb_true_iff. tauto.
Qed.

(** X9.  After any requests since start-up, [GET /sessions] answers 200 with
    session ids that are pairwise different (and hashable) and a count equal
    to their number, as long as no clear-all was among the requests; once
    one was, the view raises. *)
Theorem sessions_lists_distinct_ids (reqs : list request) :
  let w := snd (run reqs initial_world) in
  (existsb is_clear reqs = false /\
   exists keys,
     handle Sessions w
     = (Served ([("sessions", RKeys keys);
                 ("count", RInt (Z.of_nat (List.length keys)))], 200), w)
     /\ distinct_keys keys
     /\ Forall (fun k => Py.hashable k = true) keys)
  \/
  (existsb is_clear reqs = true /\
   handle Sessions w
   = (Escaped (AttributeError "'list' object has no attribute 'keys'"), w)).
Proof.
  cbv zeta.
  assert (Hinit : sound_store initial_world) by (split; constructor).
  destruct (run_keeps_sound reqs initial_world Hinit) as [Hsound Hlist].
  rewrite handle_sessions. unfold sound_store in Hsound.
  destruct (chat_histories (snd (run reqs initial_world))) as [items|].
  - left. split.
    + destruct (existsb is_clear reqs); [|reflexivity].
      assert (H : Dict items = EmptyList) by (apply Hlist; now right). discriminate.
    + exists (map fst items). now split.
  - right. split; [|reflexivity].
    destruct (proj1 Hlist eq_refl) as [H|H]; [discriminate | exact H].
Qed.

Lemma handle_on_list (req : request) (w : world) :
  chat_histories w = EmptyList ->
  snd (handle req w) = w /\ answer_after_clear req (fst (handle req w)).
Proof.
  intros Hl. destruct req as [env|arg| |random|].
  - rewrite handle_ask. cbn [fst snd answer_after_clear status_served].
    split; [now apply ask_question_on_list|].
    destruct (ask_question_cases env w)
      as [[_ [b [st [E Hst]]]] | [[members [q [e' [_ [_ [_ E]]]]]]
                                | [members [q [items0 [Hj [Hq [Hd0 [Hh [Hprint E]]]]]]]]]].
    + rewrite E. cbn. destruct Hst as [-> | ->]; auto.
    + rewrite E. now right.
    + rewrite Hl in Hd0. discriminate.
  - unfold handle, serve. rewrite get_history_spec. cbn [fst snd answer_after_clear].
    split; [reflexivity|]. unfold history_of. now rewrite Hl.
  - rewrite handle_sessions, Hl. now split.
  - now split.
  - rewrite handle_clear. unfold session_keys. rewrite Hl.
    destruct w as [store lg]. cbn in Hl. subst store. now split.
Qed.

(** X10.  Once the store has been cleared it stays the empty list whatever
    requests follow, and nothing reaches the chain: every [/ask] is answered
    with 400 or 500, every [GET /history] with the empty 200 answer, every
    [GET /sessions] raises, and a further clear-all reports 0 sessions. *)
Theorem cleared_store_stays_cleared (reqs : list request) (w : world) :
  chat_histories w = EmptyList ->
  snd (run reqs w) = w /\ Forall2 answer_after_clear reqs (fst (run reqs w)).
Proof.
  intros Hl. induction reqs as [|req rest IH].
  - split; [reflexivity | constructor].
  - rewrite run_cons. cbn [fst snd].
    destruct (handle_on_list req w Hl) as [Hw Ha]. rewrite Hw.
    destruct IH as [IHw IHa]. split; [exact IHw | now constructor].
Qed.

Lemma cleared_store_stays_cleared_witness :
  chat_histories (snd (handle ClearAllHistory two_sessions)) = EmptyList
  /\ snd (run [Ask first_ask; History None; Sessions; ClearAllHistory; Ask other_ask]
              (snd (handle ClearAllHistory two_sessions)))
     = snd (handle ClearAllHistory two_sessions)
  /\ Forall2 answer_after_clear
             [Ask first_ask; History None; Sessions; ClearAllHistory; Ask other_ask]
             (fst (run [Ask first_ask; History None; Sessions; ClearAllHistory;
                        Ask other_ask]
                       (snd (handle ClearAllHistory two_sessions)))).
Proof.
  split; [reflexivity|].
  apply (cleared_store_stays_cleared
           [Ask first_ask; History None; Sessions; ClearAllHistory; Ask other_ask]
           (snd (handle ClearAllHistory two_sessions))).
  reflexivity.
Defined.

(** X11.  Where [GET /sessions] answers, its count is the number of ids it
    lists, and clear-all served in its place answers 200, reports that count
    in its message and leaves the empty list as the store. *)
Theorem clear_all_reports_the_session_count (w : world) (keys : list json) (n : Z) :
  handle Sessions w = (Served ([("sessions", RKeys keys); ("count", RInt n)], 200), w) ->
  n = Z.of_nat (List.length keys)
  /\ handle ClearAllHistory w
     = (Served ([("message", RText ("Chat history cleared for all "
                                    ++ Py.str_int n ++ " sessions"));
                 ("status", RText "success")], 200),
        mk_world EmptyList (invoked w)).
Proof.
  rewrite handle_sessions, handle_clear. unfold session_keys.
  destruct (chat_histories w) as [items|]; [|discriminate].
  intros H. injection H as <- <-. now split.
Qed.

Lemma clear_all_reports_the_session_count_witness :
  handle Sessions two_sessions
  = (Served ([("sessions", RKeys [JStr "default_session"; JStr "other"]);
              ("count", RInt 2)], 200), two_sessions)
  /\ 2 = Z.of_nat (List.length [JStr "default_session"; JStr "other"])
  /\ handle ClearAllHistory two_sessions
     = (Served ([("message", RText "Chat history cleared for all 2 sessions");
                 ("status", RText "success")], 200),
        mk_world EmptyList (invoked two_sessions)).
Proof.
  split; [reflexivity|].
  apply (clear_all_reports_the_session_count two_sessions
           [JStr "default_session"; JStr "other"] 2).
  reflexivity.
Defined.

(** ** The prompt does not escape what it quotes *)

Lemma two_lines_merged (t1 t2 : Turn) :
  two_lines (merged_turn t1 t2) = two_lines t1 ++ two_lines t2.
Proof.
  unfold two_lines, merged_turn, line. cbn [question answer].
  rewrite !append_assoc. reflexivity.
Qed.

Lemma flatten_app (l1 l2 : list string) :
  flatten (l1 ++ l2) = flatten l1 ++ flatten l2.
Proof.
  induction l1 as [|x l1 IH]; simpl; [reflexivity|].
  now rewrite IH, append_assoc.
Qed.

(** X12.  Questions and answers go into the prompt as they are, line breaks
    included, so the prompt does not tell the turns apart: two stored turns
    in a row give the chain exactly the prompt that a single turn gives
    whose answer spells out the second turn, although the histories
    differ. *)
Theorem adjacent_turns_read_like_one
        (before after : list Turn) (t1 t2 : Turn) (new_question : json) :
  contextualize (build_context (before ++ t1 :: t2 :: after)) new_question
  = contextualize (build_context (before ++ merged_turn t1 t2 :: after)) new_question
  /\ (before ++ t1 :: t2 :: after)%list <> (before ++ merged_turn t1 t2 :: after)%list.
Proof.
  split.
  - rewrite !contextualize_build_context.
    assert (Hshape : forall l (t : Turn) l' q,
               expected_prompt (l ++ t :: l') q
               = JStr (line "previous conversation:"
                       ++ flatten (map two_lines (l ++ t :: l'))
                       ++ "Human: " ++ Py.str q)).
    { intros l t l' q. now destruct l. }
    rewrite !Hshape. do 2 f_equal. f_equal.
    rewrite !map_app, !flatten_app. cbn [map flatten].
    now rewrite two_lines_merged, append_assoc.
  - intros H. apply (f_equal (@List.length Turn)) in H.
    rewrite !length_app in H. simpl in H. lia.
Qed.

(** ** Start-up *)

Lemma env_truthy_set (getenv : getenv_fn) (var : string) :
  env_truthy (getenv var) = true <-> is_set getenv var.
Proof.
  unfold env_truthy, is_set, Py.str_truthy. destruct (getenv var) as [s|].
  - rewrite negb_true_iff, String.eqb_neq. split.
    + intros H. now exists s.
    + intros [s' [E H]]. now injection E as ->.
  - split; [discriminate | intros [s [E _]]; discriminate].
Qed.

Lemma check_vars_passes (getenv : getenv_fn) (vars : list (string * string)) :
  check_vars getenv vars = Val tt
  <-> Forall (fun vd => is_set getenv (fst vd)) vars.
Proof.
  induction vars as [|[var desc] rest IH]; simpl.
  - split; [constructor | reflexivity].
  - destruct (env_truthy (getenv var)) eqn:E; simpl.
    + rewrite IH. split.
      * intros H. constructor; [now apply env_truthy_set | exact H].
      * intros H. now inversion H.
    + split; [discriminate|]. intros H. inversion H as [|? ? Hset _]; subst.
      apply env_truthy_set in Hset. simpl in Hset. congruence.
Qed.

Lemma check_vars_fails (getenv : getenv_fn) (vars : list (string * string)) (e : exn) :
  check_vars getenv vars = Raise e ->
  exists before var desc after,
    vars = (before ++ (var, desc) :: after)%list
    /\ Forall (fun vd => is_set getenv (fst vd)) before
    /\ ~ is_set getenv var
    /\ e = ValueError ("Missing " ++ desc
                       ++ " in environment variables. Check your .env file.").
Proof.
  induction vars as [|[var desc] rest IH]; simpl; [discriminate|].
  destruct (env_truthy (getenv var)) eqn:E; simpl.
  - intros H. destruct (IH H) as [before [v [d [after [-> [Hb [Hv He]]]]]]].
    exists ((var, desc) :: before), v, d, after.
    split; [reflexivity|]. split; [|now split].
    constructor; [now apply env_truthy_set | exact Hb].
  - intros H. injection H as <-. exists [], var, desc, rest.
    split; [reflexivity|]. split; [constructor|]. split; [|reflexivity].
    intros Hset. apply env_truthy_set in Hset. congruence.
Qed.

Lemma check_required_vars (getenv : getenv_fn) :
  check_vars getenv required_vars = Val tt
  <-> (is_set getenv "AZURE_OPENAI_API_KEY"
       /\ is_set getenv "AZURE_OPENAI_ENDPOINT"
       /\ is_set getenv "AZURE_OPENAI_API_VERSION"
       /\ is_set getenv "AZURE_OPENAI_CHAT_DEPLOYMENT_NAME").
Proof.
  rewrite check_vars_passes. unfold required_vars. split.
  - intros H. repeat (inversion H as [|? ? ? H']; subst; clear H; rename H' into H).
    simpl in *. tauto.
  - intros [H1 [H2 [H3 H4]]]. repeat constructor; assumption.
Qed.

(** X13.  The start-up check passes exactly when each of the four variables
    is set to a non-empty value; an empty value counts as missing. *)
Theorem startup_check_passes_iff_all_set (getenv : getenv_fn) :
  check_vars getenv required_vars = Val tt
  <-> ((exists s, getenv "AZURE_OPENAI_API_KEY" = Some s /\ s <> "")
       /\ (exists s, getenv "AZURE_OPENAI_ENDPOINT" = Some s /\ s <> "")
       /\ (exists s, getenv "AZURE_OPENAI_API_VERSION" = Some s /\ s <> "")
       /\ (exists s, getenv "AZURE_OPENAI_CHAT_DEPLOYMENT_NAME" = Some s /\ s <> "")).
Proof.
  rewrite check_vars_passes. unfold required_vars, is_set. split.
  - intros H. repeat (inversion H as [|? ? ? H']; subst; clear H; rename H' into H).
    simpl in *. tauto.
  - intros [H1 [H2 [H3 H4]]]. repeat constructor; assumption.
Qed.

(** X14.  When the start-up check fails it raises [ValueError] for the first
    of the four variables, in the order key, endpoint, version, deployment,
    that is unset or empty, and names that variable's description. *)
Theorem startup_reports_first_missing_variable (getenv : getenv_fn) (e : exn) :
  check_vars getenv required_vars = Raise e ->
  exists before var desc after,
    required_vars = (before ++ (var, desc) :: after)%list
    /\ Forall (fun vd => is_set getenv (fst vd)) before
    /\ ~ is_set getenv var
    /\ type_name e = "ValueError"
    /\ text e = "Missing " ++ desc ++ " in environment variables. Check your .env file.".
Proof.
  intros H. destruct (check_vars_fails getenv required_vars e H)
    as [before [var [desc [after [Hv [Hb [Hn ->]]]]]]].
  exists before, var, desc, after. repeat split; assumption.
Qed.

Lemma startup_reports_first_missing_variable_witness :
  check_vars sample_getenv required_vars
  = Raise (ValueError "Missing API version in environment variables. Check your .env file.")
  /\ exists before var desc after,
       required_vars = (before ++ (var, desc) :: after)%list
       /\ Forall (fun vd => is_set sample_getenv (fst vd)) before
       /\ ~ is_set sample_getenv var
       /\ type_name (ValueError "Missing API version in environment variables. Check your .env file.")
          = "ValueError"
       /\ text (ValueError "Missing API version in environment variables. Check your .env file.")
          = "Missing " ++ desc ++ " in environment variables. Check your .env file.".
Proof.
  split; [reflexivity|].
  apply (startup_reports_first_missing_variable sample_getenv). reflexivity.
Defined.

(** X15.  Start-up hands the constructor the values of the API version and
    the deployment name, and only once the check has passed; it ends in the
    client, in the check's [ValueError] whatever the constructor would do,
    or in a [RuntimeError] whose text carries the constructor's error. *)
Theorem startup_outcomes {L : Type} (getenv : getenv_fn)
        (AzureChatOpenAI : option string -> option string -> outcome L) :
  match startup getenv AzureChatOpenAI with
  | Val llm =>
      check_vars getenv required_vars = Val tt
      /\ exists version deployment,
           getenv "AZURE_OPENAI_API_VERSION" = Some version /\ version <> "" /\
           getenv "AZURE_OPENAI_CHAT_DEPLOYMENT_NAME" = Some deployment /\
           deployment <> "" /\
           AzureChatOpenAI (Some version) (Some deployment) = Val llm
  | Raise e =>
      (check_vars getenv required_vars = Raise e
       /\ forall other : option string -> option string -> outcome L,
            startup getenv other = Raise e)
      \/ (check_vars getenv required_vars = Val tt
          /\ exists e0,
               AzureChatOpenAI (getenv "AZURE_OPENAI_API_VERSION")
                               (getenv "AZURE_OPENAI_CHAT_DEPLOYMENT_NAME") = Raise e0
               /\ e = RuntimeError ("Failed to initialize AzureChatOpenAI: " ++ text e0))
  end.
Proof.
  destruct (check_vars getenv required_vars) as [[]|e] eqn:Hcheck.
  - destruct (proj1 (check_required_vars getenv) Hcheck)
      as [_ [_ [[version [Hv Hvne]] [deployment [Hd Hdne]]]]].
    unfold startup. rewrite Hcheck.
    destruct (AzureChatOpenAI _ _) as [llm|e0] eqn:Hctor.
    + split; [reflexivity|]. exists version, deployment.
      rewrite Hv, Hd in Hctor. now repeat split.
    + right. split; [reflexivity|]. now exists e0.
  - unfold startup. rewrite Hcheck. left. split; [reflexivity|].
    intros other. reflexivity.
Qed.

(** ** The shape of a generated session id *)

Lemma hex_digits_succ (k : nat) (n : Z) :
  hex_digits (S k) n
  = String (Py.hex_digit (Z.to_nat ((n / 16 ^ Z.of_nat k) mod 16))) (hex_digits k n).
Proof. reflexivity. Qed.

Lemma hex_digits_split (a b : nat) (n : Z) :
  hex_digits (a + b) n = hex_digits a (n / 16 ^ Z.of_nat b) ++ hex_digits b n.
Proof.
  induction a as [|a IH]; [reflexivity|].
  change (S a + b)%nat with (S (a + b)).
  rewrite !hex_digits_succ, IH. cbn [append]. f_equal. f_equal. f_equal. f_equal.
  rewrite Z.div_div by (try apply Z.pow_pos_nonneg; lia).
  now rewrite Nat2Z.inj_add, Z.pow_add_r, Z.mul_comm by lia.
Qed.

Lemma all_hex_digits (k : nat) (n : Z) : all_hex (hex_digits k n).
Proof.
  induction k as [|k IH]; [exact I|].
  rewrite hex_digits_succ. split; [|exact IH].
  eexists. split; [|reflexivity].
  pose proof (Z.mod_pos_bound (n / 16 ^ Z.of_nat k) 16 eq_refl). lia.
Qed.

Lemma dashed_parts (a b c d e : string) :
  String.length a = 8%nat -> String.length b = 4%nat -> String.length c = 4%nat ->
  String.length d = 4%nat -> String.length e = 12%nat ->
  dashed (a ++ b ++ c ++ d ++ e) = a ++ "-" ++ b ++ "-" ++ c ++ "-" ++ d ++ "-" ++ e.
Proof.
  intros Ha Hb Hc Hd He.
  do 8 (destruct a as [|? a]; [discriminate|]). destruct a; [|discriminate].
  do 4 (destruct b as [|? b]; [discriminate|]). destruct b; [|discriminate].
  do 4 (destruct c as [|? c]; [discriminate|]). destruct c; [|discriminate].
  do 4 (destruct d as [|? d]; [discriminate|]). destruct d; [|discriminate].
  do 12 (destruct e as [|? e]; [discriminate|]). destruct e; [|discriminate].
  reflexivity.
Qed.

Lemma nibble_of_uuid4 (random : Z) (k : Z) :
  0 <= k ->
  (uuid4 random / 2 ^ k) mod 16
  = Z.lor (Z.land (Z.shiftr random k) (Z.land (Z.shiftr kept_bits k) 15))
          (Z.land (Z.shiftr (Z.lor (Z.shiftl 0x8000 48) (Z.shiftl 4 76)) k) 15).
Proof.
  intros Hk. rewrite <- Z.shiftr_div_pow2 by exact Hk.
  change 16 with (2 ^ 4). rewrite <- Z.land_ones by lia. change (Z.ones 4) with 15.
  rewrite uuid4_from_kept_bits, Z.shiftr_lor, Z.shiftr_land, Z.land_lor_distr_l.
  now rewrite <- Z.land_assoc.
Qed.

Lemma uuid4_version (random : Z) : (uuid4 random / 16 ^ 19) mod 16 = 4.
Proof.
  change (16 ^ 19) with (2 ^ 76). rewrite nibble_of_uuid4 by lia.
  replace (Z.land (Z.shiftr kept_bits 76) 15) with 0 by reflexivity.
  now rewrite Z.land_0_r.
Qed.

Lemma uuid4_variant (random : Z) : 8 <= (uuid4 random / 16 ^ 15) mod 16 <= 11.
Proof.
  change (16 ^ 15) with (2 ^ 60). rewrite nibble_of_uuid4 by lia.
  replace (Z.land (Z.shiftr kept_bits 60) 15) with (Z.ones 2) by reflexivity.
  rewrite Z.land_ones by lia.
  replace (Z.land (Z.shiftr (Z.lor (Z.shiftl 32768 48) (Z.shiftl 4 76)) 60) 15)
    with 8 by reflexivity.
  pose proof (Z.mod_pos_bound (Z.shiftr random 60) (2 ^ 2) eq_refl) as Hb.
  change (2 ^ 2) with 4 in *.
  assert (Hc : Z.shiftr random 60 mod 4 = 0 \/ Z.shiftr random 60 mod 4 = 1
               \/ Z.shiftr random 60 mod 4 = 2 \/ Z.shiftr random 60 mod 4 = 3) by lia.
  destruct Hc as [-> | [-> | [-> | ->]]]; cbn; lia.
Qed.

(** X16.  A generated session id has the shape of a version-4 UUID: 36
    characters, lower-case hexadecimal digits in groups of 8, 4, 4, 4 and
    12 separated by dashes, the third group starting with 4 and the fourth
    with 8, 9, a or b; the request answers 200 and leaves the world as it
    is. *)
Theorem generated_session_id_shape (random : Z) (w : world) :
  0 <= random < 2 ^ 128 ->
  exists (a b c d e : string) (v : ascii),
    handle (GenerateSession random) w
    = (Served ([("session_id",
                 RText (a ++ "-" ++ b ++ "-" ++ String "4" c ++ "-" ++ String v d ++ "-" ++ e));
                ("status", RText "success")], 200), w)
    /\ String.length a = 8%nat /\ String.length b = 4%nat /\ String.length c = 3%nat
    /\ String.length d = 3%nat /\ String.length e = 12%nat
    /\ all_hex a /\ all_hex b /\ all_hex c /\ all_hex d /\ all_hex e
    /\ (v = "8" \/ v = "9" \/ v = "a" \/ v = "b")%char.
Proof.
  intros _. set (n := uuid4 random).
  exists (hex_digits 8 (n / 16 ^ 24)), (hex_digits 4 (n / 16 ^ 20)),
         (hex_digits 3 (n / 16 ^ 16)), (hex_digits 3 (n / 16 ^ 12)), (hex_digits 12 n),
         (Py.hex_digit (Z.to_nat ((n / 16 ^ 15) mod 16))).
  split.
  - assert (Hc : hex_digits 4 (n / 16 ^ 16) = String "4" (hex_digits 3 (n / 16 ^ 16))).
    { change 4%nat with (S 3). rewrite hex_digits_succ. f_equal.
      rewrite Z.div_div by lia.
      change (16 ^ 16 * 16 ^ Z.of_nat 3) with (16 ^ 19).
      unfold n. now rewrite uuid4_version. }
    assert (Hd : hex_digits 4 (n / 16 ^ 12)
                 = String (Py.hex_digit (Z.to_nat ((n / 16 ^ 15) mod 16)))
                          (hex_digits 3 (n / 16 ^ 12))).
    { change 4%nat with (S 3). rewrite hex_digits_succ. f_equal.
      now rewrite Z.div_div by lia. }
    unfold handle, serve, generate_session, ret, uuid_str. fold n.
    change 32%nat with (8 + (4 + (4 + (4 + 12))))%nat.
    rewrite (hex_digits_split 8), (hex_digits_split 4 (4 + (4 + 12))),
            (hex_digits_split 4 (4 + 12)), (hex_digits_split 4 12).
    rewrite dashed_parts by apply length_hex_digits.
    change (16 ^ Z.of_nat (4 + (4 + (4 + 12)))) with (16 ^ 24).
    change (16 ^ Z.of_nat (4 + (4 + 12))) with (16 ^ 20).
    change (16 ^ Z.of_nat (4 + 12)) with (16 ^ 16).
    change (16 ^ Z.of_nat 12) with (16 ^ 12).
    now rewrite Hc, Hd.
  - repeat (split; [apply length_hex_digits || apply all_hex_digits|]).
    pose proof (uuid4_variant random) as Hv. fold n in Hv.
    assert (Hc : (n / 16 ^ 15) mod 16 = 8 \/ (n / 16 ^ 15) mod 16 = 9
                 \/ (n / 16 ^ 15) mod 16 = 10 \/ (n / 16 ^ 15) mod 16 = 11) by lia.
    destruct Hc as [-> | [-> | [-> | ->]]]; cbn; tauto.
Qed.

Lemma generated_session_id_shape_witness :
  0 <= 0x0123456789abcdef0123456789abcdef < 2 ^ 128
  /\ exists (a b c d e : string) (v : ascii),
       handle (GenerateSession 0x0123456789abcdef0123456789abcdef) initial_world
       = (Served ([("session_id",
                    RText (a ++ "-" ++ b ++ "-" ++ String "4" c ++ "-" ++ String v d
                           ++ "-" ++ e));
                   ("status", RText "success")], 200), initial_world)
       /\ String.length a = 8%nat /\ String.length b = 4%nat /\ String.length c = 3%nat
       /\ String.length d = 3%nat /\ String.length e = 12%nat
       /\ all_hex a /\ all_hex b /\ all_hex c /\ all_hex d /\ all_hex e
       /\ (v = "8" \/ v = "9" \/ v = "a" \/ v = "b")%char.
Proof.
  assert (H : 0 <= 0x0123456789abcdef0123456789abcdef < 2 ^ 128)
    by (split; [lia | reflexivity]).
  split; [exact H|].
  exact (generated_session_id_shape 0x0123456789abcdef0123456789abcdef initial_world H).
Defined.

(** ** When the console cannot show the answer *)

(** X17.  The answer is printed at line 130 before it is recorded: when the
    chain has answered and the console refuses that text, the request is
    answered with 500 and the error's text, the chain has been called, and
    the answer is lost: no turn is appended, the store holding at most the
    new, empty entry for the session. *)
Theorem unshown_answer_is_not_recorded
        (env : ask_env) (w : world) (members : list (string * json)) (q : json)
        (items : list (json * list Turn)) (content : string) (e : exn) :
  get_json env = Val (JObj members) ->
  Py.lookup "question" members = Some q ->
  chat_histories w = Dict items ->
  Py.hashable (resolved_session members) = true ->
  console env (received_text (resolved_session members) q) = Val tt ->
  chain_invoke env (expected_prompt (stored_turns (resolved_session members) items) q)
  = Val content ->
  console env (response_text (resolved_session members) content) = Raise e ->
  fst (ask_question env w) = ([("error", RText (error_message e))], 500)
  /\ invoked (snd (ask_question env w))
     = (invoked w
        ++ [expected_prompt (stored_turns (resolved_session members) items) q])%list
  /\ history_of (resolved_session members) (snd (ask_question env w))
     = Some (stored_turns (resolved_session members) items).
Proof.
  intros Hj Hq Hd Hh Hp1 Hcall Hp2.
  rewrite (ask_question_dict env w members q items Hj Hq Hd Hh Hp1). cbv zeta.
  rewrite contextualize_build_context, Hcall, Hp2. cbn [fst snd invoked].
  unfold history_of. cbn [chat_histories]. rewrite (with_session_get _ _ Hh).
  repeat split.
Qed.

Lemma unshown_answer_is_not_recorded_witness :
  fst (ask_question accented_answer_ask after_first_ask)
  = ([("error",
       RText ("Unexpected error: UnicodeEncodeError: 'ascii' codec can't encode "
              ++ "character '\xe9' in position 41: ordinal not in range(128)"))], 500)
  /\ invoked (snd (ask_question accented_answer_ask after_first_ask))
     = [JStr "What is 2+2?";
        JStr ("previous conversation:" ++ Py.nl
              ++ "Human: What is 2+2?" ++ Py.nl ++ "AI: 4" ++ Py.nl
              ++ "Human: coffee in French?")]
  /\ history_of (JStr "default_session")
                (snd (ask_question accented_answer_ask after_first_ask))
     = Some [mk_turn (JStr "What is 2+2?") "4" "2024-05-01 10:00:00.000001"].
Proof.
  exact (unshown_answer_is_not_recorded accented_answer_ask after_first_ask
           [("question", JStr "coffee in French?")] (JStr "coffee in French?")
           [(JStr "default_session",
             [mk_turn (JStr "What is 2+2?") "4" "2024-05-01 10:00:00.000001"])]
           accented
           (mk_exn false "UnicodeEncodeError"
                   ("'ascii' codec can't encode character '\xe9' in position 41: "
                    ++ "ordinal not in range(128)"))
           eq_refl eq_refl eq_refl eq_refl eq_refl eq_refl eq_refl).
Defined.
